(** * Message-bus broker adapter (cortx.utils.message_bus.message_broker)

    A shallow embedding of [message_broker.py]: the reflective broker
    factory, the Kafka adapter with its role configuration, the producer
    path [send] and the polling generator [receive_subscribed].

    The confluent_kafka client is an external collaborator.  Every call the
    adapter makes into it is appended to a trace, and whether the call raises
    is decided by an arbitrary function of the trace so far and of the call:
    all statements below hold for every such behaviour of the client. *)

From Stdlib Require Import ZArith NArith List String Ascii Strings.Byte DecimalString Lia.
From stdpp Require Import base option list strings gmap.

Local Open Scope string_scope.
Local Open Scope list_scope.

(** ** Python values that cross the adapter's interface *)

(** Values found in keyword arguments and in the client configuration
    dictionary.  Identifiers (topic names, client ids, option names) are
    ASCII and kept as [string]. *)
Inductive pyval :=
| PNone
| PBool (b : bool)
| PStr (s : string)
| PList (l : list string).

#[global] Instance pyval_eq_dec : EqDecision pyval.
Proof. solve_decision. Defined.

(** Truth value testing, as done by [if client_config['offset']:]. *)
Definition truthy (v : pyval) : bool :=
  match v with
  | PNone => false
  | PBool b => b
  | PStr s => negb (String.eqb s "")
  | PList l => match l with [] => false | _ :: _ => true end
  end.

(** The error object a polled message may carry ([msg.error()]). *)
Record KafkaError := { kerr_code : Z; kerr_str : string }.

Inductive mbe_arg :=
| ArgStr (s : string)
| ArgKafkaError (k : KafkaError).

(** Exceptions.  [MessageBusError] is the repository's own error class, taken
    here as a plain one-argument [Exception]; [ClientError] stands for any
    exception class of the broker client or of the configuration store. *)
Inductive exn :=
| MessageBusError (arg : mbe_arg)
| KeyError (key : string)
| AttributeError (msg : string)
| TypeError (msg : string)
| AssertionError
| UnicodeEncodeError (position : nat) (codepoint : N)
| KeyboardInterrupt
| ClientError (cls msg : string).

(** [except Exception] does not catch [KeyboardInterrupt], which derives
    from [BaseException] only. *)
Definition is_Exception (e : exn) : bool :=
  match e with
  | KeyboardInterrupt => false
  | _ => true
  end.

Definition is_MessageBusError (e : exn) : bool :=
  match e with
  | MessageBusError _ => true
  | _ => false
  end.

Definition dec_of_nat (n : nat) : string := NilZero.string_of_uint (Nat.to_uint n).
Definition dec_of_Z (z : Z) : string := NilZero.string_of_int (Z.to_int z).

Definition hex_digit (n : N) : ascii :=
  if (n <? 10)%N then ascii_of_N (48 + n) else ascii_of_N (87 + n).

Definition hex4 (n : N) : string :=
  String (hex_digit (N.land (N.shiftr n 12) 15))
    (String (hex_digit (N.land (N.shiftr n 8) 15))
       (String (hex_digit (N.land (N.shiftr n 4) 15))
          (String (hex_digit (N.land n 15)) ""))).

(** [str(e)], as interpolated by the f-strings of the two [except] clauses.
    The text for [UnicodeEncodeError] is the one Python gives for a single
    unencodable character; for a run of adjacent surrogates Python names the
    range of positions instead.  No [except] clause of the module formats
    this error: [send] lets it through as it is. *)
Definition exn_str (e : exn) : string :=
  match e with
  | MessageBusError (ArgStr s) => s
  | MessageBusError (ArgKafkaError k) => kerr_str k
  | KeyError k => "'" ++ k ++ "'"
  | AttributeError m => m
  | TypeError m => m
  | AssertionError => ""
  | UnicodeEncodeError p c =>
      "'utf-8' codec can't encode character '\u" ++ hex4 c ++ "' in position "
        ++ dec_of_nat p ++ ": surrogates not allowed"
  | KeyboardInterrupt => ""
  | ClientError _ m => m
  end.

(** ** A state and exception monad

    A computation runs on a state [S] and ends either normally with a value
    or with a raised exception; the state reached is kept in both cases,
    since Python does not roll back assignments made before a [raise]. *)
Definition M (S A : Type) : Type := S -> S * (exn + A).

Definition ret {S A} (a : A) : M S A := fun s => (s, inr a).
Definition raise {S A} (e : exn) : M S A := fun s => (s, inl e).
Definition bind {S A B} (m : M S A) (k : A -> M S B) : M S B :=
  fun s => match m s with
           | (s', inl e) => (s', inl e)
           | (s', inr a) => k a s'
           end.
Definition get {S} : M S S := fun s => (s, inr s).
Definition modify {S} (f : S -> S) : M S unit := fun s => (f s, inr tt).

(** [try: m except Exception as e: h e] *)
Definition try_except_Exception {S A} (m : M S A) (h : exn -> M S A) : M S A :=
  fun s => match m s with
           | (s', inl e) => if is_Exception e then h e s' else (s', inl e)
           | r => r
           end.

Notation "'let!' x ':=' m 'in' k" := (bind m (fun x => k))
  (at level 10, x name, m at level 100, k at level 200).
Notation "'do!' m 'in' k" := (bind m (fun _ => k))
  (at level 10, m at level 100, k at level 200).

Definition when {S} (b : bool) (m : M S unit) : M S unit :=
  if b then m else ret tt.

Fixpoint for_each {S A} (l : list A) (body : A -> M S unit) : M S unit :=
  match l with
  | [] => ret tt
  | x :: rest => do! body x in for_each rest body
  end.

(** ** The broker client *)

Record AdminClient := { admin_conf : gmap string pyval }.
Record Producer := { producer_conf : gmap string pyval }.
Record Consumer := { consumer_conf : gmap string pyval; subscription : option pyval }.

(** Calls into confluent_kafka, in the order they are made. *)
Inductive call :=
| CAdminClient (conf : gmap string pyval)
| CProducer (conf : gmap string pyval)
| CConsumer (conf : gmap string pyval)
| CSubscribe (c : Consumer) (topics : pyval)
| CProduce (p : Producer) (topic : pyval) (payload : list byte)
| CFlush (p : Producer).

Definition is_produce (c : call) : bool :=
  match c with CProduce _ _ _ => true | _ => false end.
Definition is_admin_ctor (c : call) : bool :=
  match c with CAdminClient _ => true | _ => false end.

(** The configuration store [Conf]: [Conf.get(index, key)] either raises or
    returns a mapping from option names to lists of strings, on which the
    [str(server)] of the constructor is the identity. *)
Definition ConfStore : Type := string -> string -> exn + gmap string (list string).

(** [','.join(l)] *)
Fixpoint join (sep : string) (l : list string) : string :=
  match l with
  | [] => ""
  | [x] => x
  | x :: rest => x ++ sep ++ join sep rest
  end.

(** [s.endswith(suffix)] *)
Definition endswith (s suffix : string) : bool :=
  let n := String.length s in
  let k := String.length suffix in
  (k <=? n)%nat && String.eqb (substring (n - k) k s) suffix.

(** ** The adapter object *)

Record KafkaMessageBroker := {
  config : gmap string pyval;
  message_type : pyval;
  producer : option Producer;
  consumer : option Consumer;
  admin : AdminClient
}.

Definition set_config (f : gmap string pyval -> gmap string pyval)
    (b : KafkaMessageBroker) : KafkaMessageBroker :=
  {| config := f (config b); message_type := message_type b;
     producer := producer b; consumer := consumer b; admin := admin b |}.
Definition set_message_type (v : pyval) (b : KafkaMessageBroker) : KafkaMessageBroker :=
  {| config := config b; message_type := v;
     producer := producer b; consumer := consumer b; admin := admin b |}.
Definition set_producer (p : Producer) (b : KafkaMessageBroker) : KafkaMessageBroker :=
  {| config := config b; message_type := message_type b;
     producer := Some p; consumer := consumer b; admin := admin b |}.
Definition set_consumer (c : Consumer) (b : KafkaMessageBroker) : KafkaMessageBroker :=
  {| config := config b; message_type := message_type b;
     producer := producer b; consumer := Some c; admin := admin b |}.

(** The state a method runs on: the receiver and the trace of client calls. *)
Record st := { self : KafkaMessageBroker; calls : list call }.

Definition on_self (f : KafkaMessageBroker -> KafkaMessageBroker) (s : st) : st :=
  {| self := f (self s); calls := calls s |}.

(** The factory object; [adapter = None] is an instance on which the
    attribute [adapter] was never assigned. *)
Record MessageBrokerFactory := { adapter : option KafkaMessageBroker }.

(** The classes bound in the module's namespace, which is what
    [inspect.getmembers(sys.modules[__name__], inspect.isclass)] returns,
    sorted by name. *)
Inductive pyclass :=
| C_AdminClient | C_Conf | C_Consumer | C_ConsumerRecord | C_KafkaMessageBroker
| C_MessageBroker | C_MessageBrokerFactory | C_MessageBusError | C_Producer.

Definition module_classes : list (string * pyclass) :=
  [ ("AdminClient", C_AdminClient); ("Conf", C_Conf); ("Consumer", C_Consumer);
    ("ConsumerRecord", C_ConsumerRecord); ("KafkaMessageBroker", C_KafkaMessageBroker);
    ("MessageBroker", C_MessageBroker); ("MessageBrokerFactory", C_MessageBrokerFactory);
    ("MessageBusError", C_MessageBusError); ("Producer", C_Producer) ].

(** The class attribute [name]; only [KafkaMessageBroker] declares one. *)
Definition class_attr_name (c : pyclass) : option string :=
  match c with
  | C_KafkaMessageBroker => Some "kafka"
  | _ => None
  end.

Definition class_ident (c : pyclass) : string :=
  match c with
  | C_AdminClient => "AdminClient" | C_Conf => "Conf" | C_Consumer => "Consumer"
  | C_ConsumerRecord => "ConsumerRecord" | C_KafkaMessageBroker => "KafkaMessageBroker"
  | C_MessageBroker => "MessageBroker" | C_MessageBrokerFactory => "MessageBrokerFactory"
  | C_MessageBusError => "MessageBusError" | C_Producer => "Producer"
  end.

Section Client.

(** [client_raises tr c]: the exception, if any, with which the client call
    [c] ends when the calls [tr] were made before it. *)
Variable client_raises : list call -> call -> option exn.

Definition client_call (c : call) : M (list call) unit :=
  fun tr => match client_raises tr c with
            | Some e => (tr ++ [c], inl e)
            | None => (tr ++ [c], inr tt)
            end.

(** A client call made from a method of the adapter. *)
Definition client (c : call) : M st unit :=
  fun s => match client_call c (calls s) with
           | (tr, r) => ({| self := self s; calls := tr |}, r)
           end.

(** *** KafkaMessageBroker.__init__ *)

Definition KafkaMessageBroker_init (Conf : ConfStore) : M (list call) KafkaMessageBroker :=
  fun tr =>
    match Conf "global" "message_broker" with
    | inl e => (tr, inl e)
    | inr entry =>
        match entry !! "servers" with
        | None => (tr, inl (KeyError "servers"))
        | Some l =>
            let servers := join "," l in
            let cfg : gmap string pyval := {[ "bootstrap.servers" := PStr servers ]} in
            (do! client_call (CAdminClient cfg) in
             ret {| config := cfg; message_type := PNone; producer := None;
                    consumer := None; admin := {| admin_conf := cfg |} |}) tr
        end
    end.

(** *** MessageBrokerFactory.__init__ *)

(** [cls(Conf)] for a class of the module.  Only [KafkaMessageBroker] is
    ever instantiated by the factory; the base class takes no argument. *)
Definition instantiate (c : pyclass) (Conf : ConfStore) : M (list call) KafkaMessageBroker :=
  match c with
  | C_KafkaMessageBroker => KafkaMessageBroker_init Conf
  | _ => raise (TypeError (class_ident c ++ "() cannot build a broker adapter"))
  end.

Fixpoint factory_loop (brokers : list (string * pyclass)) (message_broker : string)
    (Conf : ConfStore) (this : MessageBrokerFactory) : M (list call) MessageBrokerFactory :=
  match brokers with
  | [] => ret this
  | (name, cls) :: rest =>
      if negb (String.eqb name "MessageBroker") && endswith name "Broker" then
        match class_attr_name cls with
        | None => raise (AttributeError
                           ("type object '" ++ name ++ "' has no attribute 'name'"))
        | Some n =>
            if String.eqb message_broker n then
              let! a := instantiate cls Conf in
              factory_loop rest message_broker Conf {| adapter := Some a |}
            else factory_loop rest message_broker Conf this
        end
      else factory_loop rest message_broker Conf this
  end.

Definition MessageBrokerFactory_init (Conf : ConfStore) (message_broker : string)
    : M (list call) MessageBrokerFactory :=
  try_except_Exception
    (factory_loop module_classes message_broker Conf {| adapter := None |})
    (fun e => raise (MessageBusError (ArgStr ("Invalid Broker. " ++ exn_str e)))).

(** *** KafkaMessageBroker.__call__ *)

(** [client_config[k]] on the keyword-argument dictionary. *)
Definition kwarg (client_config : gmap string pyval) (k : string) : M st pyval :=
  match client_config !! k with
  | Some v => ret v
  | None => raise (KeyError k)
  end.

Definition set_option (k : string) (v : pyval) : M st unit :=
  modify (on_self (set_config (insert k v))).

Definition configure_producer : M st unit :=
  let! s := get in
  let cfg := config (self s) in
  do! client (CProducer cfg) in
  modify (on_self (set_producer {| producer_conf := cfg |})).

Definition configure_consumer (client_config : gmap string pyval) : M st unit :=
  do! set_option "enable.auto.commit" (PBool false) in
  let! offset := kwarg client_config "offset" in
  do! when (truthy offset) (set_option "auto.offset.reset" offset) in
  let! consumer_group := kwarg client_config "consumer_group" in
  do! when (truthy consumer_group) (set_option "group.id" consumer_group) in
  let! s := get in
  let cfg := config (self s) in
  do! client (CConsumer cfg) in
  let c := {| consumer_conf := cfg; subscription := None |} in
  do! modify (on_self (set_consumer c)) in
  let topics := message_type (self s) in
  do! client (CSubscribe c topics) in
  modify (on_self (set_consumer {| consumer_conf := cfg; subscription := Some topics |})).

Definition KafkaMessageBroker_call (client_role : string)
    (client_config : gmap string pyval) : M st unit :=
  try_except_Exception
    (let! mt := kwarg client_config "message_type" in
     do! modify (on_self (set_message_type mt)) in
     let! client_id := kwarg client_config "client_id" in
     do! when (truthy client_id) (set_option "client.id" client_id) in
     if String.eqb client_role "PRODUCER" then configure_producer
     else if String.eqb client_role "CONSUMER" then configure_consumer client_config
     else if String.eqb client_role "PRODUCER" || String.eqb client_role "CONSUMER"
          then ret tt
          else raise AssertionError)
    (fun e => raise (MessageBusError (ArgStr
       ("Invalid Kafka " ++ client_role ++ " configurations. " ++ exn_str e)))).

(** *** KafkaMessageBroker.send *)

(** Message text is a Python [str]: a sequence of code points below
    [0x110000]. *)
Definition pystr : Type := list N.

Definition byte_of (n : N) : byte :=
  match Byte.of_N n with
  | Some b => b
  | None => x00
  end.

Definition cont_byte (c : N) (shift : N) : byte :=
  byte_of (N.lor 0x80 (N.land (N.shiftr c shift) 0x3F)).

(** The UTF-8 encoding of one code point; surrogates have none. *)
Definition utf8_char (c : N) : option (list byte) :=
  if (c <? 0x80)%N then Some [byte_of c]
  else if (c <? 0x800)%N then
    Some [byte_of (N.lor 0xC0 (N.shiftr c 6)); cont_byte c 0]
  else if (c <? 0x10000)%N then
    if (0xD800 <=? c)%N && (c <=? 0xDFFF)%N then None
    else Some [byte_of (N.lor 0xE0 (N.shiftr c 12)); cont_byte c 6; cont_byte c 0]
  else if (c <? 0x110000)%N then
    Some [byte_of (N.lor 0xF0 (N.shiftr c 18)); cont_byte c 12; cont_byte c 6; cont_byte c 0]
  else None.

Fixpoint utf8_from (pos : nat) (s : pystr) : exn + list byte :=
  match s with
  | [] => inr []
  | c :: rest =>
      match utf8_char c with
      | None => inl (UnicodeEncodeError pos c)
      | Some bs =>
          match utf8_from (S pos) rest with
          | inl e => inl e
          | inr tl => inr (bs ++ tl)
          end
      end
  end.

(** [bytes(s, 'utf-8')] *)
Definition bytes_utf8 (s : pystr) : exn + list byte := utf8_from 0 s.

Definition produce (each_message : pystr) : M st unit :=
  let! s := get in
  match producer (self s) with
  | None => raise (AttributeError "'NoneType' object has no attribute 'produce'")
  | Some p =>
      match bytes_utf8 each_message with
      | inl e => raise e
      | inr payload => client (CProduce p (message_type (self s)) payload)
      end
  end.

Definition flush : M st unit :=
  let! s := get in
  match producer (self s) with
  | None => raise (AttributeError "'NoneType' object has no attribute 'flush'")
  | Some p => client (CFlush p)
  end.

Definition send (messages : list pystr) : M st unit :=
  do! for_each messages produce in
  flush.

End Client.

(** ** The consumer path *)

(** A polled message, read through [error()], [topic()], [value()],
    [partition()], [offset()] and [key()]. *)
Record Message := {
  msg_error : option KafkaError;
  msg_topic : string;
  msg_value : option (list byte);
  msg_partition : Z;
  msg_offset : Z;
  msg_key : option (list byte)
}.

(** The named tuple [ConsumerRecord(message_type, message, partition, offset, key)]. *)
Record ConsumerRecord := {
  rec_message_type : string;
  rec_message : option (list byte);
  rec_partition : Z;
  rec_offset : Z;
  rec_key : string
}.

Definition nl : string := String (ascii_of_nat 10) "".
Definition chr (n : N) : string := String (ascii_of_N n) "".

Definition hex2 (n : N) : string :=
  String (hex_digit (N.land (N.shiftr n 4) 15)) (String (hex_digit (N.land n 15)) "").

(** [repr] of a bytes object: single quotes unless the bytes hold a single
    quote and no double quote. *)
Definition bytes_quote (bs : list byte) : N :=
  if existsb (fun b => (Byte.to_N b =? 39)%N) bs
     && negb (existsb (fun b => (Byte.to_N b =? 34)%N) bs)
  then 34%N else 39%N.

Definition repr_byte (quote : N) (b : byte) : string :=
  let c := Byte.to_N b in
  if (c =? quote)%N || (c =? 92)%N then chr 92 ++ chr c
  else if (c =? 9)%N then chr 92 ++ "t"
  else if (c =? 10)%N then chr 92 ++ "n"
  else if (c =? 13)%N then chr 92 ++ "r"
  else if (c <? 32)%N || (127 <=? c)%N then chr 92 ++ "x" ++ hex2 c
  else chr c.

Definition bytes_repr (bs : list byte) : string :=
  let q := bytes_quote bs in
  "b" ++ chr q ++ String.concat "" (map (repr_byte q) bs) ++ chr q.

(** [str(msg.key())]: the key is [None] or a bytes object. *)
Definition str_key (k : option (list byte)) : string :=
  match k with
  | None => "None"
  | Some bs => bytes_repr bs
  end.

Definition record_of (msg : Message) : ConsumerRecord :=
  {| rec_message_type := msg_topic msg; rec_message := msg_value msg;
     rec_partition := msg_partition msg; rec_offset := msg_offset msg;
     rec_key := str_key (msg_key msg) |}.

(** The line written to [sys.stderr] for a received record; the format
    string goes through [%], so its [%%] prints one percent sign. *)
Definition record_line (msg : Message) : string :=
  "% " ++ msg_topic msg ++ " [" ++ dec_of_Z (msg_partition msg) ++ "] at offset "
    ++ dec_of_Z (msg_offset msg) ++ " with key " ++ str_key (msg_key msg) ++ ":" ++ nl.

(** The line written on [KeyboardInterrupt]; this string is written as it
    is, without [%] formatting. *)
Definition aborted_line : string := "%% Aborted by user" ++ nl.

(** What one [consumer.poll(timeout=0.5)] does: time out with [None], return
    a message, or be left by an exception, which is also how an interrupt
    from the keyboard shows up in the loop. *)
Inductive poll_outcome :=
| PollNone
| PollMsg (msg : Message)
| PollRaises (e : exn).

(** How far a generator got on the polls it was given: still in the loop
    waiting for the next poll, left by an exception, or returned. *)
Inductive gen_status :=
| Polling
| Raised (e : exn)
| Returned.

Record gen_run := {
  yielded : list ConsumerRecord;
  stderr : list string;
  status : gen_status
}.

Definition emit (r : ConsumerRecord) (line : string) (g : gen_run) : gen_run :=
  {| yielded := r :: yielded g; stderr := line :: stderr g; status := status g |}.

(** The loop of [receive_subscribed], run by a caller that keeps asking for
    the next record, on the successive outcomes of [poll]. *)
Fixpoint poll_loop (polls : list poll_outcome) : gen_run :=
  match polls with
  | [] => {| yielded := []; stderr := []; status := Polling |}
  | PollNone :: rest => poll_loop rest
  | PollMsg msg :: rest =>
      match msg_error msg with
      | Some err =>
          {| yielded := []; stderr := [];
             status := Raised (MessageBusError (ArgKafkaError err)) |}
      | None => emit (record_of msg) (record_line msg) (poll_loop rest)
      end
  | PollRaises KeyboardInterrupt :: _ =>
      {| yielded := []; stderr := [aborted_line]; status := Returned |}
  | PollRaises e :: _ =>
      {| yielded := []; stderr := []; status := Raised e |}
  end.

Definition receive_subscribed (consumer : option Consumer)
    (polls : list poll_outcome) : gen_run :=
  match consumer with
  | None =>
      {| yielded := []; stderr := [];
         status := Raised (AttributeError "'NoneType' object has no attribute 'poll'") |}
  | Some _ => poll_loop polls
  end.

Definition receive (b : KafkaMessageBroker) (polls : list poll_outcome) : gen_run :=
  receive_subscribed (consumer b) polls.

(** One [next()] on the generator: the result, the lines written, and the
    polls left for later calls. *)
Inductive next_result :=
| Yield (r : ConsumerRecord)
| Raise (e : exn)
| StopIteration
| Blocked.

Fixpoint gen_next (polls : list poll_outcome)
    : next_result * list string * list poll_outcome :=
  match polls with
  | [] => (Blocked, [], [])
  | PollNone :: rest => gen_next rest
  | PollMsg msg :: rest =>
      match msg_error msg with
      | Some err => (Raise (MessageBusError (ArgKafkaError err)), [], rest)
      | None => (Yield (record_of msg), [record_line msg], rest)
      end
  | PollRaises KeyboardInterrupt :: rest => (StopIteration, [aborted_line], rest)
  | PollRaises e :: rest => (Raise e, [], rest)
  end.

(** ** Sample inputs, used to run the model *)

Definition never_raises : list call -> call -> option exn := fun _ _ => None.

Definition sample_Conf : ConfStore :=
  fun _ _ => inr {[ "servers" := ["localhost:9092"] ]}.

Definition sample_config : gmap string pyval :=
  {[ "bootstrap.servers" := PStr "localhost:9092" ]}.

Definition sample_broker : KafkaMessageBroker :=
  {| config := sample_config; message_type := PNone; producer := None;
     consumer := None; admin := {| admin_conf := sample_config |} |}.

Definition sample_st : st :=
  {| self := sample_broker; calls := [CAdminClient sample_config] |}.

Definition sample_producer : Producer := {| producer_conf := sample_config |}.

(** The sample adapter after [adapter('PRODUCER', message_type='orders', client_id=None)]. *)
Definition sample_producer_st : st :=
  {| self := {| config := sample_config; message_type := PStr "orders";
                producer := Some sample_producer; consumer := None;
                admin := {| admin_conf := sample_config |} |};
     calls := [CAdminClient sample_config; CProducer sample_config] |}.

(** A client whose local queue is full: every write raises [BufferError]. *)
Definition queue_full : list call -> call -> option exn :=
  fun _ c => if is_produce c then Some (ClientError "BufferError" "Local: Queue full")
             else None.

Definition sample_consumer_kwargs : gmap string pyval :=
  {[ "message_type" := PList ["orders"]; "client_id" := PNone;
     "offset" := PStr "earliest"; "consumer_group" := PStr "billing" ]}.

Definition sample_msg (offset : Z) (value : list byte) : Message :=
  {| msg_error := None; msg_topic := "orders"; msg_value := Some value;
     msg_partition := 0; msg_offset := offset; msg_key := None |}.

Definition sample_error_msg : Message :=
  {| msg_error := Some {| kerr_code := 3; kerr_str := "UNKNOWN_TOPIC_OR_PART" |};
     msg_topic := "orders"; msg_value := None;
     msg_partition := 0; msg_offset := 0; msg_key := None |}.

Definition sample_consumer : Consumer :=
  {| consumer_conf := sample_config; subscription := Some (PList ["orders"]) |}.

Definition sample_producer_kwargs : gmap string pyval :=
  {[ "message_type" := PStr "orders"; "client_id" := PNone ]}.

Definition sample_bare_kwargs : gmap string pyval :=
  {[ "message_type" := PList ["orders"]; "client_id" := PNone;
     "offset" := PNone; "consumer_group" := PNone ]}.

(** ** Vocabulary of the further properties *)

(** The messages among the outcomes of a sequence of polls, in order. *)
Fixpoint poll_messages (polls : list poll_outcome) : list Message :=
  match polls with
  | [] => []
  | PollMsg msg :: rest => msg :: poll_messages rest
  | _ :: rest => poll_messages rest
  end.

(** A poll that neither ends the generator nor interrupts it: a time-out or
    a message without error. *)
Definition quiet_poll (o : poll_outcome) : bool :=
  match o with
  | PollNone => true
  | PollMsg msg => match msg_error msg with None => true | Some _ => false end
  | PollRaises _ => false
  end.

(** The line the [except KeyboardInterrupt] clause adds, for a run that
    returned. *)
Definition closing_lines (g : gen_status) : list string :=
  match g with
  | Returned => [aborted_line]
  | _ => []
  end.

Definition is_write_or_flush (c : call) : bool :=
  match c with
  | CProduce _ _ _ | CFlush _ => true
  | _ => false
  end.

(** Code points that have a UTF-8 encoding. *)
Definition encodable (c : N) : bool :=
  (c <? 0xD800)%N || ((0xDFFF <? c)%N && (c <? 0x110000)%N).

(** A configuration store whose broker entry has no server list. *)
Definition bare_Conf : ConfStore := fun _ _ => inr ∅.

(** A client on which [subscribe] raises. *)
Definition subscribe_fails : list call -> call -> option exn :=
  fun _ c => match c with
             | CSubscribe _ _ => Some (ClientError "KafkaException" "Unknown topic")
             | _ => None
             end.

(** A client on which [flush] raises. *)
Definition flush_fails : list call -> call -> option exn :=
  fun _ c => match c with
             | CFlush _ => Some (ClientError "KafkaException" "Local: Timed out")
             | _ => None
             end.

(** The keyword arguments a role-configuration call subscripts, in the
    order in which it does: [message_type] and [client_id] before the role
    test, [offset] and [consumer_group] in the CONSUMER branch. *)
Definition keywords_read (client_role : string) : list string :=
  if String.eqb client_role "PRODUCER" then ["message_type"; "client_id"]
  else if String.eqb client_role "CONSUMER"
       then ["message_type"; "client_id"; "offset"; "consumer_group"]
       else ["message_type"; "client_id"].

(** The first of these keywords that the call does not carry. *)
Fixpoint first_missing (client_config : gmap string pyval) (keys : list string)
    : option string :=
  match keys with
  | [] => None
  | k :: rest =>
      match client_config !! k with
      | None => Some k
      | Some _ => first_missing client_config rest
      end
  end.

(** [if client_config[key]: self.config[opt] = client_config[key]] *)
Definition write_if_given (opt key : string) (client_config cfg : gmap string pyval)
    : gmap string pyval :=
  match client_config !! key with
  | Some v => if truthy v then <[opt := v]> cfg else cfg
  | None => cfg
  end.

(** The configuration from which a role-configuration call builds its
    client, when the keywords it reads are all there. *)
Definition role_options (client_role : string) (client_config cfg : gmap string pyval)
    : gmap string pyval :=
  let cfg1 := write_if_given "client.id" "client_id" client_config cfg in
  if String.eqb client_role "PRODUCER" then cfg1
  else if String.eqb client_role "CONSUMER" then
    write_if_given "group.id" "consumer_group" client_config
      (write_if_given "auto.offset.reset" "offset" client_config
         (<["enable.auto.commit" := PBool false]> cfg1))
  else cfg1.

(** *** The iteration over [receive], seen from the caller

    The generator runs only between a [next()] and the following [yield];
    the rest of the time it is suspended and the code of the caller runs.
    An interrupt from the keyboard is raised in the code that is running
    when it arrives: inside the [try] block of [receive_subscribed] when the
    generator is in its loop, in the caller when the generator has not
    started or is suspended at its [yield]. *)
Inductive iter_event :=
| Poll (o : poll_outcome)
| Interrupt.

Inductive iter_end :=
| Suspended
| InLoop
| GeneratorRaised (e : exn)
| GeneratorReturned
| CallerInterrupted.

Record iter_run := {
  received : list ConsumerRecord;
  err_lines : list string;
  ending : iter_end
}.

Definition received_one (r : ConsumerRecord) (line : string) (g : iter_run) : iter_run :=
  {| received := r :: received g; err_lines := line :: err_lines g; ending := ending g |}.

(** [at_yield] says where control is: [true] when the generator has not
    started or is suspended at its [yield], [false] when it is in its
    loop.  A [Poll] event met while the caller runs is the caller asking for
    the next record. *)
Fixpoint iterate (at_yield : bool) (events : list iter_event) : iter_run :=
  match events with
  | [] => {| received := []; err_lines := [];
             ending := if at_yield then Suspended else InLoop |}
  | Interrupt :: _ =>
      if at_yield
      then {| received := []; err_lines := []; ending := CallerInterrupted |}
      else {| received := []; err_lines := [aborted_line]; ending := GeneratorReturned |}
  | Poll PollNone :: rest => iterate false rest
  | Poll (PollMsg msg) :: rest =>
      match msg_error msg with
      | Some err =>
          {| received := []; err_lines := [];
             ending := GeneratorRaised (MessageBusError (ArgKafkaError err)) |}
      | None => received_one (record_of msg) (record_line msg) (iterate true rest)
      end
  | Poll (PollRaises KeyboardInterrupt) :: _ =>
      {| received := []; err_lines := [aborted_line]; ending := GeneratorReturned |}
  | Poll (PollRaises e) :: _ =>
      {| received := []; err_lines := []; ending := GeneratorRaised e |}
  end.

(** [for record in adapter.receive(): ...] on a configured consumer. *)
Definition receive_iteration (events : list iter_event) : iter_run :=
  iterate true events.

Definition status_of_ending (e : iter_end) : gen_status :=
  match e with
  | Suspended | InLoop | CallerInterrupted => Polling
  | GeneratorRaised e => Raised e
  | GeneratorReturned => Returned
  end.

(** ** Properties *)

Ltac run_monad :=
  unfold KafkaMessageBroker_call, configure_producer, configure_consumer,
    try_except_Exception, set_option, kwarg, when, client, client_call, bind, ret,
    raise, get, modify, on_self, set_config, set_message_type, set_producer,
    set_consumer, send, flush, produce in *;
  cbn [self calls config message_type producer consumer admin fst snd] in *.

Ltac reduce_monad :=
  cbn [self calls config message_type producer consumer admin fst snd
       is_Exception orb andb negb] in *.

(** Case analysis on what the code branches on, outermost test first. *)
Ltac case_on_matches client_raises :=
  repeat (match goal with
          | |- context [@lookup _ _ _ _ ?k ?m] => destruct (m !! k) eqn:?
          | |- context [truthy ?v] => destruct (truthy v) eqn:?
          | |- context [String.eqb ?a ?b] => destruct (String.eqb a b) eqn:?
          | |- context [client_raises ?t ?c] => destruct (client_raises t c) eqn:?
          | |- context [is_Exception ?e] => destruct (is_Exception e) eqn:?
          end; reduce_monad).

(** The same, through the keywords a call reads. *)
Ltac case_on_reads client_raises :=
  repeat (match goal with
          | |- context [@lookup _ _ _ _ ?k ?m] => destruct (m !! k) eqn:?
          | |- context [truthy ?v] => destruct (truthy v) eqn:?
          | |- context [String.eqb ?a ?b] => destruct (String.eqb a b) eqn:?
          | |- context [client_raises ?t ?c] => destruct (client_raises t c) eqn:?
          | |- context [is_Exception ?e] => destruct (is_Exception e) eqn:?
          end; reduce_monad; cbn [first_missing]).

Section Properties.

Variable client_raises : list call -> call -> option exn.

Lemma role_eqb_false (client_role r : string) :
  client_role <> r -> String.eqb client_role r = false.
Proof. intros H. apply String.eqb_neq. exact H. Qed.

(** *** Construction *)

Lemma init_inv (Conf : ConfStore) (tr tr' : list call) (b : KafkaMessageBroker) :
  KafkaMessageBroker_init client_raises Conf tr = (tr', inr b) ->
  exists cfg,
    tr' = tr ++ [CAdminClient cfg]
    /\ b = {| config := cfg; message_type := PNone; producer := None;
              consumer := None; admin := {| admin_conf := cfg |} |}.
Proof.
  unfold KafkaMessageBroker_init.
  destruct (Conf "global" "message_broker") as [e | entry]; [discriminate |].
  destruct (entry !! "servers") as [l |]; [| discriminate].
  cbv [bind ret client_call].
  destruct (client_raises tr _); [discriminate |].
  intros H. injection H as <- <-. eexists. split; reflexivity.
Qed.

(** The filter of the factory loop lets through one class of the module. *)
Lemma broker_classes :
  List.filter
    (fun nc => negb (String.eqb (fst nc) "MessageBroker") && endswith (fst nc) "Broker")
    module_classes
  = [("KafkaMessageBroker", C_KafkaMessageBroker)].
Proof. reflexivity. Qed.

Lemma factory_loop_unknown (Conf : ConfStore) (message_broker : string)
    (this : MessageBrokerFactory) (tr : list call) :
  String.eqb message_broker "kafka" = false ->
  factory_loop client_raises module_classes message_broker Conf this tr = (tr, inr this).
Proof. intros H. cbn. rewrite H. reflexivity. Qed.

Lemma factory_unknown (Conf : ConfStore) (message_broker : string) (tr : list call) :
  message_broker <> "kafka" ->
  MessageBrokerFactory_init client_raises Conf message_broker tr
  = (tr, inr {| adapter := None |}).
Proof.
  intros H. unfold MessageBrokerFactory_init, try_except_Exception.
  rewrite factory_loop_unknown; [reflexivity | apply String.eqb_neq; exact H].
Qed.

Lemma factory_kafka (Conf : ConfStore) (tr : list call) :
  MessageBrokerFactory_init client_raises Conf "kafka" tr
  = match KafkaMessageBroker_init client_raises Conf tr with
    | (tr', inr b) => (tr', inr {| adapter := Some b |})
    | (tr', inl e) =>
        if is_Exception e
        then (tr', inl (MessageBusError (ArgStr ("Invalid Broker. " ++ exn_str e))))
        else (tr', inl e)
    end.
Proof.
  unfold MessageBrokerFactory_init, try_except_Exception. cbn -[KafkaMessageBroker_init].
  unfold bind, ret.
  destruct (KafkaMessageBroker_init client_raises Conf tr) as [tr' [e | b]]; reflexivity.
Qed.

(** C1. A broker type that no class of the module declares: the loop matches
    nothing, nothing raises, and the factory is returned without its
    [adapter] attribute; no [MessageBusError] is raised. *)
Theorem factory_unregistered_has_no_adapter (Conf : ConfStore) (tr : list call) :
  MessageBrokerFactory_init client_raises Conf "rabbitmq" tr
  = (tr, inr {| adapter := None |}).
Proof. apply factory_unknown. discriminate. Qed.

(** The registered half of the same sentence: with ["kafka"] the factory
    either holds an adapter of the class whose [name] is ["kafka"], or the
    construction ended with an exception, wrapped when [except Exception]
    catches it. *)
Lemma factory_registered (Conf : ConfStore) (tr tr' : list call) (f : MessageBrokerFactory) :
  MessageBrokerFactory_init client_raises Conf "kafka" tr = (tr', inr f) ->
  class_attr_name C_KafkaMessageBroker = Some "kafka"
  /\ exists b, adapter f = Some b
             /\ KafkaMessageBroker_init client_raises Conf tr = (tr', inr b).
Proof.
  rewrite factory_kafka.
  destruct (KafkaMessageBroker_init client_raises Conf tr) as [tr0 [e | b]].
  - destruct (is_Exception e); discriminate.
  - intros H. injection H as <- <-. split; [reflexivity |]. exists b. split; reflexivity.
Qed.

(** *** Role configuration *)

Lemma call_keeps_admin (client_role : string) (client_config : gmap string pyval) (s : st) :
  let s' := fst (KafkaMessageBroker_call client_raises client_role client_config s) in
  admin (self s') = admin (self s)
  /\ exists added, calls s' = calls s ++ added
                   /\ List.filter is_admin_ctor added = [].
Proof.
  destruct s as [[cfg mt p c a] tr]. run_monad.
  case_on_matches client_raises; (split; [reflexivity |]);
    first [ exists []; rewrite app_nil_r; split; reflexivity
          | eexists [_]; split; reflexivity
          | eexists [_; _]; rewrite <- app_assoc; split; reflexivity ].
Qed.

(** C9. Construction reads the server list, creates the administrative
    client with one call and nothing else, and leaves the producer and the
    consumer unset; it succeeds whenever the configuration has servers and
    the administrative client can be built, with no role involved.  Role
    configuration afterwards never makes another administrative client. *)
Theorem init_creates_admin_once (Conf : ConfStore) (tr : list call)
    (entry : gmap string (list string)) (l : list string) :
  Conf "global" "message_broker" = inr entry ->
  entry !! "servers" = Some l ->
  client_raises tr (CAdminClient {[ "bootstrap.servers" := PStr (join "," l) ]}) = None ->
  exists b,
    KafkaMessageBroker_init client_raises Conf tr
    = (tr ++ [CAdminClient {[ "bootstrap.servers" := PStr (join "," l) ]}], inr b)
    /\ producer b = None
    /\ consumer b = None
    /\ admin b = {| admin_conf := {[ "bootstrap.servers" := PStr (join "," l) ]} |}
    /\ forall client_role client_config tr0,
         let s := {| self := b; calls := tr0 |} in
         let s' := fst (KafkaMessageBroker_call client_raises client_role client_config s) in
         admin (self s') = admin b
         /\ exists added, calls s' = tr0 ++ added
                          /\ List.filter is_admin_ctor added = [].
Proof.
  intros HConf Hservers Hadmin.
  eexists. split.
  - unfold KafkaMessageBroker_init. rewrite HConf, Hservers.
    cbv [bind ret client_call]. rewrite Hadmin. reflexivity.
  - cbn [producer consumer admin].
    split; [reflexivity |]. split; [reflexivity |]. split; [reflexivity |].
    intros client_role client_config tr0.
    exact (call_keeps_admin client_role client_config {| self := _; calls := tr0 |}).
Qed.

(** C10. A role other than PRODUCER and CONSUMER: the call raises
    [MessageBusError], makes no client call, and leaves the producer and the
    consumer as they were.  With the two keyword arguments read before the
    role test present, the wrapped exception is the failed assertion. *)
Theorem invalid_role_raises_MessageBusError (client_role : string)
    (client_config : gmap string pyval) (s : st) :
  client_role <> "PRODUCER" ->
  client_role <> "CONSUMER" ->
  exists s' msg,
    KafkaMessageBroker_call client_raises client_role client_config s
    = (s', inl (MessageBusError (ArgStr msg)))
    /\ producer (self s') = producer (self s)
    /\ consumer (self s') = consumer (self s)
    /\ calls s' = calls s
    /\ (is_Some (client_config !! "message_type") ->
        is_Some (client_config !! "client_id") ->
        msg = ("Invalid Kafka " ++ client_role ++ " configurations. "
                 ++ exn_str AssertionError)%string).
Proof.
  intros HP HC. apply role_eqb_false in HP, HC.
  destruct s as [[cfg mt p c a] tr]. run_monad. rewrite HP, HC. cbn [orb].
  destruct (client_config !! "message_type") as [v |] eqn:Hmt;
    [destruct (client_config !! "client_id") as [cid |] eqn:Hcid;
       [destruct (truthy cid) |] |];
    reduce_monad; eexists; eexists; (split; [reflexivity |]);
    cbn [self calls producer consumer]; repeat split;
    intros [? ?] [? ?]; congruence.
Qed.

(** C7. A CONSUMER call that returns normally has built the consumer with
    automatic commit switched off, with the offset policy and the group of
    the call in its configuration when these have a truth value of true, and
    has subscribed it to the message types of the call. *)
Theorem consumer_call_configures (client_config : gmap string pyval) (s s' : st) :
  KafkaMessageBroker_call client_raises "CONSUMER" client_config s = (s', inr tt) ->
  exists c topics,
    consumer (self s') = Some c
    /\ client_config !! "message_type" = Some topics
    /\ subscription c = Some topics
    /\ consumer_conf c = config (self s')
    /\ consumer_conf c !! "enable.auto.commit" = Some (PBool false)
    /\ (forall v, client_config !! "offset" = Some v -> truthy v = true ->
                  consumer_conf c !! "auto.offset.reset" = Some v)
    /\ (forall v, client_config !! "consumer_group" = Some v -> truthy v = true ->
                  consumer_conf c !! "group.id" = Some v)
    /\ calls s' = calls s ++ [CConsumer (consumer_conf c);
                              CSubscribe {| consumer_conf := consumer_conf c;
                                            subscription := None |} topics].
Proof.
  destruct s as [[cfg mt p c a] tr]. run_monad.
  change (String.eqb "CONSUMER" "PRODUCER") with false.
  change (String.eqb "CONSUMER" "CONSUMER") with true. cbv iota.
  case_on_matches client_raises; intros H; try discriminate H.
  all: injection H as <-; eexists; eexists; cbn [self calls consumer config
         consumer_conf subscription].
  all: rewrite <- app_assoc.
  all: repeat split; try reflexivity.
  all: try (intros; simplify_map_eq; congruence).
Qed.

(** C8, as stated: a PRODUCER call that leaves out [client_id] fails, on a
    client that never raises; the [KeyError] of the missing keyword is
    wrapped. *)
Lemma omitted_client_id_fails :
  snd (KafkaMessageBroker_call never_raises "PRODUCER"
         {[ "message_type" := PStr "orders" ]} sample_st)
  = inl (MessageBusError (ArgStr "Invalid Kafka PRODUCER configurations. 'client_id'")).
Proof. vm_compute. reflexivity. Qed.

Lemma omitted_offset_fails :
  snd (KafkaMessageBroker_call never_raises "CONSUMER"
         {[ "message_type" := PList ["orders"]; "client_id" := PStr "c1";
            "consumer_group" := PStr "billing" ]} sample_st)
  = inl (MessageBusError (ArgStr "Invalid Kafka CONSUMER configurations. 'offset'")).
Proof. vm_compute. reflexivity. Qed.

(** *** The producer path *)

Lemma produce_cons (m : pystr) (bs : list byte) (messages : list pystr)
    (b : KafkaMessageBroker) (p : Producer) (tr : list call) :
  producer b = Some p ->
  bytes_utf8 m = inr bs ->
  for_each (m :: messages) (produce client_raises) {| self := b; calls := tr |}
  = match client_raises tr (CProduce p (message_type b) bs) with
    | Some e => ({| self := b; calls := tr ++ [CProduce p (message_type b) bs] |}, inl e)
    | None => for_each messages (produce client_raises)
                {| self := b; calls := tr ++ [CProduce p (message_type b) bs] |}
    end.
Proof.
  intros Hp Hm. cbn [for_each]. unfold bind at 1. unfold produce at 1.
  unfold bind, get, client, client_call. cbn [self calls]. rewrite Hp, Hm.
  cbn [self calls].
  destruct (client_raises tr (CProduce p (message_type b) bs)); reflexivity.
Qed.

(** What the loop of [send] does on a configured producer: it issues the
    writes of a prefix of the messages, in order, and stops either after the
    last message or at the first write that the client ends with an
    exception, which then leaves the loop as it is. *)
Lemma produce_loop (messages : list pystr) (payloads : list (list byte))
    (b : KafkaMessageBroker) (p : Producer) (tr : list call) :
  producer b = Some p ->
  Forall2 (fun m bs => bytes_utf8 m = inr bs) messages payloads ->
  let writes := map (CProduce p (message_type b)) payloads in
  (for_each messages (produce client_raises) {| self := b; calls := tr |}
   = ({| self := b; calls := tr ++ writes |}, inr tt)
   /\ forall before c after, writes = before ++ c :: after ->
                              client_raises (tr ++ before) c = None)
  \/ (exists before c after e,
        writes = before ++ c :: after
        /\ client_raises (tr ++ before) c = Some e
        /\ for_each messages (produce client_raises) {| self := b; calls := tr |}
           = ({| self := b; calls := tr ++ before ++ [c] |}, inl e)).
Proof.
  intros Hp Henc. revert tr.
  induction Henc as [| m bs messages payloads Hm Henc IH]; intros tr; cbn [map].
  - left. cbn [for_each]. split.
    + unfold ret. rewrite app_nil_r. reflexivity.
    + intros [| ? ?] ? ? H; discriminate H.
  - rewrite (produce_cons m bs messages b p tr Hp Hm).
    destruct (client_raises tr (CProduce p (message_type b) bs)) as [e |] eqn:Hr.
    + right. exists [], (CProduce p (message_type b) bs),
        (map (CProduce p (message_type b)) payloads), e.
      rewrite app_nil_r. split; [reflexivity |]. split; [exact Hr | reflexivity].
    + destruct (IH (tr ++ [CProduce p (message_type b) bs]))
        as [[Hrun Hok] | (before & c & after & e & Hw & He & Hrun)].
      * left. split.
        -- rewrite Hrun, <- app_assoc. reflexivity.
        -- intros [| c0 before] c after Hw; cbn in Hw; injection Hw as Hc Hw; subst.
           ++ rewrite app_nil_r. exact Hr.
           ++ specialize (Hok _ _ _ Hw). rewrite <- app_assoc in Hok. exact Hok.
      * right. exists (CProduce p (message_type b) bs :: before), c, after, e.
        rewrite <- app_assoc in He. rewrite <- app_assoc in Hrun.
        cbn [app] in *. rewrite Hw. repeat split; assumption.
Qed.

(** X10. [send] before any PRODUCER call fails on [None] without reaching the
    client and without changing the adapter: on [None.produce] when there is
    a first message, on [None.flush] when the list is empty. *)
Lemma send_without_producer (messages : list pystr) (s : st) :
  producer (self s) = None ->
  send client_raises messages s
  = (s, inl (AttributeError
               match messages with
               | [] => "'NoneType' object has no attribute 'flush'"
               | _ :: _ => "'NoneType' object has no attribute 'produce'"
               end)).
Proof.
  intros Hp. destruct s as [b tr]. cbn [self] in Hp.
  destruct messages as [| m messages].
  - unfold send. cbn [for_each]. unfold flush, bind, get, ret, raise.
    cbn [self]. rewrite Hp. reflexivity.
  - unfold send. cbn [for_each]. unfold bind, produce, get, raise.
    unfold bind. cbn [self]. rewrite Hp. reflexivity.
Qed.

Lemma flush_step (b : KafkaMessageBroker) (p : Producer) (tr : list call) :
  producer b = Some p ->
  flush client_raises {| self := b; calls := tr |}
  = ({| self := b; calls := tr ++ [CFlush p] |},
     match client_raises tr (CFlush p) with
     | Some e => inl e
     | None => inr tt
     end).
Proof.
  intros Hp. unfold flush, bind, get, client, client_call. cbn [self calls].
  rewrite Hp. cbn [self calls]. destruct (client_raises tr (CFlush p)); reflexivity.
Qed.

(** C2. On a configured producer, with message texts that have a UTF-8
    encoding: the calls [send] makes are, whatever the client does, an
    initial part of "one write per message, in the order of the list, of the
    UTF-8 bytes of the message to the bound message type, then one flush",
    so the flush is never issued before all the writes; the sequence is
    complete when [send] returns normally, and [send] returns normally when
    no call of the client raises. *)
Theorem send_writes_in_order_then_flushes (messages : list pystr)
    (payloads : list (list byte)) (s : st) (p : Producer) :
  producer (self s) = Some p ->
  Forall2 (fun m bs => bytes_utf8 m = inr bs) messages payloads ->
  exists issued rest r,
    send client_raises messages s = ({| self := self s; calls := calls s ++ issued |}, r)
    /\ map (CProduce p (message_type (self s))) payloads ++ [CFlush p] = issued ++ rest
    /\ (r = inr tt -> rest = [])
    /\ ((forall tr c, client_raises tr c = None) -> r = inr tt).
Proof.
  intros Hp Henc. destruct s as [b tr]. cbn [self calls] in *.
  unfold send, bind.
  destruct (produce_loop messages payloads b p tr Hp Henc)
    as [[Hrun Hok] | (before & c & after & e & Hw & He & Hrun)]; rewrite Hrun.
  - rewrite (flush_step b p _ Hp).
    exists (map (CProduce p (message_type b)) payloads ++ [CFlush p]), [].
    eexists. rewrite <- app_assoc, app_nil_r.
    split; [reflexivity |]. split; [reflexivity |]. split; [reflexivity |].
    intros Hnever. rewrite Hnever. reflexivity.
  - exists (before ++ [c]), (after ++ [CFlush p]), (inl e).
    split; [reflexivity |]. split.
    + rewrite Hw, <- !app_assoc. reflexivity.
    + split; [discriminate |]. intros Hnever. rewrite Hnever in He. discriminate He.
Qed.

(** C3, as stated: a write refused by the client with [BufferError] leaves
    [send] as that very exception, which is no [MessageBusError]. *)
Lemma send_lets_client_error_through :
  snd (send queue_full [[104; 105]%N] sample_producer_st)
  = inl (ClientError "BufferError" "Local: Queue full")
  /\ is_MessageBusError (ClientError "BufferError" "Local: Queue full") = false.
Proof. split; vm_compute; reflexivity. Qed.

(** An exception that leaves [send] on a configured producer with encodable
    messages is the exception with which the client ended the last call
    issued. *)
Lemma send_raise_inv (messages : list pystr)
    (payloads : list (list byte)) (s s' : st) (p : Producer) (e : exn) :
  producer (self s) = Some p ->
  Forall2 (fun m bs => bytes_utf8 m = inr bs) messages payloads ->
  send client_raises messages s = (s', inl e) ->
  exists before c rest,
    calls s' = calls s ++ before ++ [c]
    /\ self s' = self s
    /\ client_raises (calls s ++ before) c = Some e
    /\ map (CProduce p (message_type (self s))) payloads ++ [CFlush p]
       = before ++ c :: rest.
Proof.
  intros Hp Henc. destruct s as [b tr]. cbn [self calls] in *.
  unfold send, bind.
  destruct (produce_loop messages payloads b p tr Hp Henc)
    as [[Hrun Hok] | (before & c & after & e' & Hw & He & Hrun)]; rewrite Hrun.
  - rewrite (flush_step b p _ Hp).
    destruct (client_raises (tr ++ map (CProduce p (message_type b)) payloads) (CFlush p))
      as [e' |] eqn:Hf; intros H; [| discriminate H].
    injection H as <- <-.
    exists (map (CProduce p (message_type b)) payloads), (CFlush p), [].
    cbn [self calls]. rewrite <- app_assoc.
    repeat split; [exact Hf].
  - intros H. injection H as <- <-.
    exists before, c, (after ++ [CFlush p]). cbn [self calls].
    split; [reflexivity |]. split; [reflexivity |]. split; [exact He |].
    rewrite Hw, <- app_assoc. reflexivity.
Qed.

Lemma snoc_split {A : Type} (l : list A) (x : A) (before : list A) (c : A)
    (rest : list A) :
  l ++ [x] = before ++ c :: rest ->
  (before = l /\ c = x /\ rest = [])
  \/ exists rest', l = before ++ c :: rest' /\ rest = rest' ++ [x].
Proof.
  destruct rest as [| y rest _] using rev_ind; intros H.
  - apply app_inj_tail in H as [-> ->]. left. repeat split.
  - change (l ++ [x] = before ++ (c :: rest) ++ [y]) in H.
    rewrite app_assoc in H. apply app_inj_tail in H as [-> ->].
    right. exists rest. split; reflexivity.
Qed.

(** The first write that the client ends with an exception ends the loop of
    [send] with that exception. *)
Lemma produce_loop_first_failure (messages : list pystr) (payloads : list (list byte))
    (b : KafkaMessageBroker) (p : Producer) (tr before : list call) (c : call)
    (rest : list call) (e : exn) :
  producer b = Some p ->
  Forall2 (fun m bs => bytes_utf8 m = inr bs) messages payloads ->
  map (CProduce p (message_type b)) payloads = before ++ c :: rest ->
  (forall pre c' post, before = pre ++ c' :: post -> client_raises (tr ++ pre) c' = None) ->
  client_raises (tr ++ before) c = Some e ->
  for_each messages (produce client_raises) {| self := b; calls := tr |}
  = ({| self := b; calls := tr ++ before ++ [c] |}, inl e).
Proof.
  intros Hp Henc. revert tr before.
  induction Henc as [| m bs messages payloads Hm Henc IH]; intros tr before Hw Hok He.
  - destruct before; discriminate Hw.
  - rewrite (produce_cons m bs messages b p tr Hp Hm). cbn [map] in Hw.
    destruct before as [| w before]; cbn [app] in Hw; injection Hw as Hc Hw.
    + subst c. rewrite app_nil_r in He. rewrite He. reflexivity.
    + subst w. pose proof (Hok [] _ before eq_refl) as Hfirst.
      rewrite app_nil_r in Hfirst. rewrite Hfirst.
      rewrite (IH (tr ++ [CProduce p (message_type b) bs]) before Hw).
      * rewrite <- app_assoc. reflexivity.
      * intros pre c' post Hsplit. rewrite <- app_assoc. cbn [app].
        apply (Hok (CProduce p (message_type b) bs :: pre) c' post).
        rewrite Hsplit. reflexivity.
      * rewrite <- app_assoc. exact He.
Qed.

(** C3, amended.  [send] has no handler.  On a configured producer with
    encodable messages, the first call of "the writes, then the flush" that
    the client ends with an exception, a write or the flush alike, ends
    [send] with that very exception, and no call follows it; and an
    exception that leaves [send] is always such a one. *)
Theorem send_failure_is_the_client_exception (messages : list pystr)
    (payloads : list (list byte)) (s : st) (p : Producer) :
  producer (self s) = Some p ->
  Forall2 (fun m bs => bytes_utf8 m = inr bs) messages payloads ->
  (forall before c rest e,
      map (CProduce p (message_type (self s))) payloads ++ [CFlush p]
      = before ++ c :: rest ->
      (forall pre c' post, before = pre ++ c' :: post ->
                           client_raises (calls s ++ pre) c' = None) ->
      client_raises (calls s ++ before) c = Some e ->
      send client_raises messages s
      = ({| self := self s; calls := calls s ++ before ++ [c] |}, inl e))
  /\ (forall s' e,
        send client_raises messages s = (s', inl e) ->
        exists before c rest,
          calls s' = calls s ++ before ++ [c]
          /\ self s' = self s
          /\ client_raises (calls s ++ before) c = Some e
          /\ map (CProduce p (message_type (self s))) payloads ++ [CFlush p]
             = before ++ c :: rest).
Proof.
  intros Hp Henc. split.
  - intros before c rest e Hsplit Hok He.
    destruct s as [b tr]. cbn [self calls] in *. unfold send, bind.
    apply snoc_split in Hsplit as [(-> & -> & ->) | (rest' & Hw & ->)].
    + destruct (produce_loop messages payloads b p tr Hp Henc)
        as [[Hrun _] | (pre & c' & post & e' & Hw & He' & _)].
      * rewrite Hrun, (flush_step b p _ Hp), He, <- app_assoc. reflexivity.
      * rewrite (Hok pre c' post Hw) in He'. discriminate He'.
    + rewrite (produce_loop_first_failure messages payloads b p tr before c rest' e
                 Hp Henc Hw Hok He).
      reflexivity.
  - intros s' e. apply send_raise_inv; assumption.
Qed.

End Properties.

(** *** The consumer path *)

Lemma poll_loop_app_live (pre post : list poll_outcome) :
  status (poll_loop pre) = Polling ->
  poll_loop (pre ++ post)
  = {| yielded := yielded (poll_loop pre) ++ yielded (poll_loop post);
       stderr := stderr (poll_loop pre) ++ stderr (poll_loop post);
       status := status (poll_loop post) |}.
Proof.
  induction pre as [| o pre IH]; intros Hlive; cbn [app poll_loop].
  - destruct (poll_loop post); reflexivity.
  - destruct o as [| msg | e]; cbn [poll_loop] in Hlive.
    + apply IH. exact Hlive.
    + destruct (msg_error msg); [discriminate Hlive |].
      cbn [emit status] in Hlive. rewrite (IH Hlive). reflexivity.
    + destruct e; discriminate Hlive.
Qed.

Lemma poll_loop_app_over (pre post : list poll_outcome) :
  status (poll_loop pre) <> Polling ->
  poll_loop (pre ++ post) = poll_loop pre.
Proof.
  induction pre as [| o pre IH]; intros Hover; cbn [app poll_loop] in *.
  - exfalso. apply Hover. reflexivity.
  - destruct o as [| msg | e].
    + apply IH. exact Hover.
    + destruct (msg_error msg); [reflexivity |].
      cbn [emit status] in Hover. rewrite (IH Hover). reflexivity.
    + destruct e; reflexivity.
Qed.

(** [receive] before any CONSUMER call: the first [next()] fails on
    [None.poll], whatever the broker holds. *)
Lemma receive_without_consumer (b : KafkaMessageBroker) (polls : list poll_outcome) :
  consumer b = None ->
  receive b polls
  = {| yielded := []; stderr := [];
       status := Raised (AttributeError "'NoneType' object has no attribute 'poll'") |}.
Proof. intros H. unfold receive. rewrite H. reflexivity. Qed.

Lemma receive_app_live (consumer : option Consumer) (pre post : list poll_outcome) :
  status (receive_subscribed consumer pre) = Polling ->
  receive_subscribed consumer (pre ++ post)
  = {| yielded := yielded (receive_subscribed consumer pre) ++ yielded (poll_loop post);
       stderr := stderr (receive_subscribed consumer pre) ++ stderr (poll_loop post);
       status := status (poll_loop post) |}.
Proof.
  destruct consumer; [| discriminate]. cbn [receive_subscribed].
  apply poll_loop_app_live.
Qed.

(** The loop run to the end agrees with the generator advanced one
    [next()] at a time. *)
Lemma gen_next_poll_loop (polls : list poll_outcome) :
  match gen_next polls with
  | (Yield r, lines, rest) =>
      poll_loop polls
      = {| yielded := r :: yielded (poll_loop rest);
           stderr := lines ++ stderr (poll_loop rest);
           status := status (poll_loop rest) |}
  | (Raise e, lines, _) =>
      poll_loop polls = {| yielded := []; stderr := lines; status := Raised e |}
  | (StopIteration, lines, _) =>
      poll_loop polls = {| yielded := []; stderr := lines; status := Returned |}
  | (Blocked, lines, _) =>
      poll_loop polls = {| yielded := []; stderr := lines; status := Polling |}
  end.
Proof.
  induction polls as [| o polls IH]; cbn [gen_next poll_loop]; [reflexivity |].
  destruct o as [| msg | e].
  - exact IH.
  - destruct (msg_error msg); reflexivity.
  - destruct e; reflexivity.
Qed.

Lemma yielded_from_good_polls (polls : list poll_outcome) :
  Forall (fun r => exists msg, In (PollMsg msg) polls
                               /\ msg_error msg = None /\ r = record_of msg)
         (yielded (poll_loop polls)).
Proof.
  induction polls as [| o polls IH]; cbn [poll_loop yielded]; [constructor |].
  assert (Hweak : Forall (fun r => exists msg, In (PollMsg msg) (o :: polls)
                                   /\ msg_error msg = None /\ r = record_of msg)
                         (yielded (poll_loop polls))).
  { eapply Forall_impl; [exact IH |].
    intros r (msg & Hin & Herr & Hr). exists msg. split; [right; exact Hin | tauto]. }
  destruct o as [| msg | e].
  - exact Hweak.
  - destruct (msg_error msg) eqn:Herr; cbn [yielded emit]; [constructor |].
    constructor; [| exact Hweak].
    exists msg. split; [left; reflexivity | split; [exact Herr | reflexivity]].
  - destruct e; constructor.
Qed.

(** C4. A poll that returns a message with an error, reached while the
    generator is still polling, ends the generator with a [MessageBusError]
    that carries this error; what was yielded before stays, and whatever the
    broker would have returned later is never read. *)
Theorem broker_error_ends_receive (consumer : option Consumer)
    (pre post : list poll_outcome) (msg : Message) (err : KafkaError) :
  status (receive_subscribed consumer pre) = Polling ->
  msg_error msg = Some err ->
  receive_subscribed consumer (pre ++ PollMsg msg :: post)
  = {| yielded := yielded (receive_subscribed consumer pre);
       stderr := stderr (receive_subscribed consumer pre);
       status := Raised (MessageBusError (ArgKafkaError err)) |}.
Proof.
  intros Hlive Herr. rewrite (receive_app_live consumer pre _ Hlive).
  cbn [poll_loop]. rewrite Herr. cbn [yielded stderr status].
  rewrite !app_nil_r. reflexivity.
Qed.

(** C5. An empty poll changes nothing: the run with it is the run without
    it, records, lines written and outcome alike; a run of empty polls only
    leaves the generator polling; and every record yielded is the record of
    a polled message without error. *)
Theorem empty_polls_are_skipped (consumer : option Consumer)
    (pre post : list poll_outcome) (n : nat) :
  receive_subscribed consumer (pre ++ PollNone :: post)
  = receive_subscribed consumer (pre ++ post)
  /\ poll_loop (repeat PollNone n) = {| yielded := []; stderr := []; status := Polling |}
  /\ Forall (fun r => exists msg, In (PollMsg msg) (pre ++ PollNone :: post)
                                  /\ msg_error msg = None /\ r = record_of msg)
            (yielded (receive_subscribed consumer (pre ++ PollNone :: post))).
Proof.
  split; [| split].
  - destruct consumer; [| reflexivity]. cbn [receive_subscribed].
    induction pre as [| o pre IH]; cbn [app poll_loop]; [reflexivity |].
    destruct o as [| msg | e]; [exact IH | | reflexivity].
    destruct (msg_error msg); [reflexivity |]. rewrite IH. reflexivity.
  - induction n as [| n IH]; [reflexivity | exact IH].
  - destruct consumer; [| constructor]. apply yielded_from_good_polls.
Qed.

(** A [KeyboardInterrupt] that leaves [poll] while the generator is still
    polling is caught: the abort line is written to the error stream and
    the generator returns. *)
Lemma keyboard_interrupt_ends_receive_normally (consumer : option Consumer)
    (pre post : list poll_outcome) :
  status (receive_subscribed consumer pre) = Polling ->
  receive_subscribed consumer (pre ++ PollRaises KeyboardInterrupt :: post)
  = {| yielded := yielded (receive_subscribed consumer pre);
       stderr := stderr (receive_subscribed consumer pre) ++ [aborted_line];
       status := Returned |}
  /\ gen_next (PollRaises KeyboardInterrupt :: post) = (StopIteration, [aborted_line], post).
Proof.
  intros Hlive. split; [| reflexivity].
  rewrite (receive_app_live consumer pre _ Hlive).
  cbn [poll_loop yielded stderr status]. rewrite app_nil_r. reflexivity.
Qed.

(** ** The theorems at sample inputs *)

Lemma init_creates_admin_once_witness :
  exists b,
    KafkaMessageBroker_init never_raises sample_Conf []
    = ([CAdminClient sample_config], inr b)
    /\ producer b = None /\ consumer b = None
    /\ admin b = {| admin_conf := sample_config |}.
Proof.
  destruct (init_creates_admin_once never_raises sample_Conf []
              {[ "servers" := ["localhost:9092"] ]} ["localhost:9092"]
              eq_refl eq_refl eq_refl) as (b & Hrun & Hp & Hc & Ha & _).
  exists b. split; [exact Hrun |]. split; [exact Hp |]. split; [exact Hc | exact Ha].
Defined.

Lemma invalid_role_witness :
  "ADMIN" <> "PRODUCER" /\ "ADMIN" <> "CONSUMER"
  /\ exists s' msg,
      KafkaMessageBroker_call never_raises "ADMIN" sample_producer_kwargs sample_st
      = (s', inl (MessageBusError (ArgStr msg)))
      /\ producer (self s') = None /\ consumer (self s') = None
      /\ calls s' = [CAdminClient sample_config].
Proof.
  split; [discriminate |]. split; [discriminate |].
  destruct (invalid_role_raises_MessageBusError never_raises "ADMIN"
              sample_producer_kwargs sample_st ltac:(discriminate) ltac:(discriminate))
    as (s' & msg & Hrun & Hp & Hc & Htr & _).
  exists s', msg. split; [exact Hrun |]. split; [exact Hp |]. split; [exact Hc | exact Htr].
Defined.

Lemma consumer_call_configures_witness :
  exists c,
    consumer (self (fst (KafkaMessageBroker_call never_raises "CONSUMER"
                           sample_consumer_kwargs sample_st))) = Some c
    /\ subscription c = Some (PList ["orders"])
    /\ consumer_conf c !! "enable.auto.commit" = Some (PBool false)
    /\ consumer_conf c !! "auto.offset.reset" = Some (PStr "earliest")
    /\ consumer_conf c !! "group.id" = Some (PStr "billing").
Proof.
  destruct (consumer_call_configures never_raises sample_consumer_kwargs sample_st
              (fst (KafkaMessageBroker_call never_raises "CONSUMER"
                      sample_consumer_kwargs sample_st)))
    as (c & topics & Hc & Hmt & Hsub & _ & Hcommit & Hoff & Hgrp & _).
  { vm_compute. reflexivity. }
  exists c. split; [exact Hc |]. split.
  - rewrite Hsub, <- Hmt. reflexivity.
  - split; [exact Hcommit |]. split.
    + apply Hoff; reflexivity.
    + apply Hgrp; reflexivity.
Defined.

Lemma send_witness :
  send never_raises [[104; 105]%N; [0x20ac]%N] sample_producer_st
  = ({| self := self sample_producer_st;
        calls := calls sample_producer_st
                 ++ [CProduce sample_producer (PStr "orders") [x68; x69];
                     CProduce sample_producer (PStr "orders") [xe2; x82; xac];
                     CFlush sample_producer] |}, inr tt).
Proof.
  destruct (send_writes_in_order_then_flushes never_raises
              [[104; 105]%N; [0x20ac]%N] [[x68; x69]; [xe2; x82; xac]]
              sample_producer_st sample_producer)
    as (issued & rest & r & Hrun & Hseq & Hdone & Hnever).
  - reflexivity.
  - repeat constructor.
  - rewrite Hrun. rewrite (Hnever (fun _ _ => eq_refl)) in *.
    rewrite (Hdone eq_refl), app_nil_r in Hseq. rewrite <- Hseq. reflexivity.
Defined.

Lemma send_failure_witness :
  send flush_fails [[104; 105]%N; [0x20ac]%N] sample_producer_st
  = ({| self := self sample_producer_st;
        calls := calls sample_producer_st
                 ++ [CProduce sample_producer (PStr "orders") [x68; x69];
                     CProduce sample_producer (PStr "orders") [xe2; x82; xac]]
                 ++ [CFlush sample_producer] |},
     inl (ClientError "KafkaException" "Local: Timed out")).
Proof.
  apply (proj1 (send_failure_is_the_client_exception flush_fails
                  [[104; 105]%N; [0x20ac]%N] [[x68; x69]; [xe2; x82; xac]]
                  sample_producer_st sample_producer eq_refl
                  ltac:(repeat constructor))
           [CProduce sample_producer (PStr "orders") [x68; x69];
            CProduce sample_producer (PStr "orders") [xe2; x82; xac]]
           (CFlush sample_producer) []).
  - reflexivity.
  - intros pre c' post Hsplit.
    destruct pre as [| ? [| ? [| ? ?]]]; cbn in Hsplit; try discriminate Hsplit;
      injection Hsplit as <-; intros; subst; reflexivity.
  - reflexivity.
Defined.

Lemma broker_error_witness :
  receive_subscribed (Some sample_consumer)
    ([PollNone; PollMsg (sample_msg 7 [x68; x69])]
       ++ PollMsg sample_error_msg :: [PollMsg (sample_msg 8 [x68; x6f])])
  = {| yielded := [record_of (sample_msg 7 [x68; x69])];
       stderr := [record_line (sample_msg 7 [x68; x69])];
       status := Raised (MessageBusError (ArgKafkaError
                   {| kerr_code := 3; kerr_str := "UNKNOWN_TOPIC_OR_PART" |})) |}.
Proof.
  apply (broker_error_ends_receive (Some sample_consumer)
           [PollNone; PollMsg (sample_msg 7 [x68; x69])]
           [PollMsg (sample_msg 8 [x68; x6f])] sample_error_msg
           {| kerr_code := 3; kerr_str := "UNKNOWN_TOPIC_OR_PART" |});
    reflexivity.
Defined.

Lemma keyboard_interrupt_witness :
  receive_subscribed (Some sample_consumer)
    ([PollMsg (sample_msg 7 [x68; x69]); PollNone]
       ++ PollRaises KeyboardInterrupt :: [PollMsg (sample_msg 8 [x68; x6f])])
  = {| yielded := [record_of (sample_msg 7 [x68; x69])];
       stderr := [record_line (sample_msg 7 [x68; x69])] ++ [aborted_line];
       status := Returned |}.
Proof.
  apply (keyboard_interrupt_ends_receive_normally (Some sample_consumer)
           [PollMsg (sample_msg 7 [x68; x69]); PollNone]
           [PollMsg (sample_msg 8 [x68; x6f])]).
  reflexivity.
Defined.

(** ** Further properties *)

Section Further.

Variable client_raises : list call -> call -> option exn.

(** *** The factory *)

(** X1. Whatever broker type is asked for, an exception that leaves the factory
    comes from the construction of the Kafka adapter, and it is a
    [MessageBusError] whose text starts with "Invalid Broker. " unless it is
    one that [except Exception] does not catch. *)
Theorem factory_failure_is_wrapped (Conf : ConfStore) (message_broker : string)
    (tr tr' : list call) (e : exn) :
  MessageBrokerFactory_init client_raises Conf message_broker tr = (tr', inl e) ->
  message_broker = "kafka"
  /\ exists cause,
      KafkaMessageBroker_init client_raises Conf tr = (tr', inl cause)
      /\ e = if is_Exception cause
             then MessageBusError (ArgStr ("Invalid Broker. " ++ exn_str cause))
             else cause.
Proof.
  destruct (String.eqb message_broker "kafka") eqn:Hname.
  - apply String.eqb_eq in Hname. subst message_broker.
    rewrite factory_kafka.
    destruct (KafkaMessageBroker_init client_raises Conf tr) as [tr0 [cause | b]].
    + destruct (is_Exception cause) eqn:Hexc; intros H; injection H as <- <-;
        (split; [reflexivity |]); exists cause; rewrite Hexc; split; reflexivity.
    + discriminate.
  - apply String.eqb_neq in Hname.
    rewrite (factory_unknown client_raises Conf message_broker tr Hname). discriminate.
Qed.

(** X2. A broker entry without [servers]: the constructor ends with the
    [KeyError] before any client is created, and the factory hands it on as
    a [MessageBusError]. *)
Theorem construction_without_servers (Conf : ConfStore)
    (entry : gmap string (list string)) (tr : list call) :
  Conf "global" "message_broker" = inr entry ->
  entry !! "servers" = None ->
  KafkaMessageBroker_init client_raises Conf tr = (tr, inl (KeyError "servers"))
  /\ MessageBrokerFactory_init client_raises Conf "kafka" tr
     = (tr, inl (MessageBusError (ArgStr "Invalid Broker. 'servers'"))).
Proof.
  intros HConf Hservers.
  assert (Hinit : KafkaMessageBroker_init client_raises Conf tr
                  = (tr, inl (KeyError "servers"))).
  { unfold KafkaMessageBroker_init. rewrite HConf, Hservers. reflexivity. }
  split; [exact Hinit |]. rewrite factory_kafka, Hinit. reflexivity.
Qed.

(** X3. A factory built for ["kafka"] holds an adapter with no role: one
    administrative client was created from the joined server list, and the
    producer, the consumer and the message type are unset. *)
Theorem factory_kafka_adapter_has_no_role (Conf : ConfStore) (tr tr' : list call)
    (f : MessageBrokerFactory) :
  MessageBrokerFactory_init client_raises Conf "kafka" tr = (tr', inr f) ->
  exists entry l,
    Conf "global" "message_broker" = inr entry
    /\ entry !! "servers" = Some l
    /\ tr' = tr ++ [CAdminClient {[ "bootstrap.servers" := PStr (join "," l) ]}]
    /\ adapter f
       = Some {| config := {[ "bootstrap.servers" := PStr (join "," l) ]};
                 message_type := PNone; producer := None; consumer := None;
                 admin := {| admin_conf :=
                               {[ "bootstrap.servers" := PStr (join "," l) ]} |} |}.
Proof.
  rewrite factory_kafka. unfold KafkaMessageBroker_init.
  destruct (Conf "global" "message_broker") as [e | entry].
  { destruct (is_Exception e); discriminate. }
  destruct (entry !! "servers") as [l |] eqn:Hl; [| discriminate].
  cbv [bind ret client_call].
  destruct (client_raises tr _) as [e |].
  { destruct (is_Exception e); discriminate. }
  intros H. injection H as <- <-. exists entry, l.
  split; [reflexivity |]. split; [exact Hl |]. split; reflexivity.
Qed.

(** *** Role configuration *)

Lemma try_except_raises {S A : Type} (m : M S A) (h : exn -> M S A) (s s' : S) (e : exn) :
  try_except_Exception m h s = (s', inl e) ->
  (exists s0 cause, m s = (s0, inl cause) /\ is_Exception cause = true
                    /\ h cause s0 = (s', inl e))
  \/ (m s = (s', inl e) /\ is_Exception e = false).
Proof.
  unfold try_except_Exception. destruct (m s) as [s0 [cause | a]]; [| discriminate].
  destruct (is_Exception cause) eqn:Hexc; intros H.
  - left. exists s0, cause. split; [reflexivity |]. split; [exact Hexc | exact H].
  - injection H as <- <-. right. split; [reflexivity | exact Hexc].
Qed.

(** X4. An exception that leaves the role-configuration call is the
    exception raised inside it, wrapped in a [MessageBusError] that names
    the role and quotes it, or passed on as it is when [except Exception]
    does not catch it.  The exception raised inside is the [KeyError] of the
    first keyword the call reads and does not find, or the failed assertion
    on a role that is neither PRODUCER nor CONSUMER, or the exception with
    which the client ended the last call made. *)
Theorem call_failure_is_wrapped (client_role : string)
    (client_config : gmap string pyval) (s s' : st) (e : exn) :
  KafkaMessageBroker_call client_raises client_role client_config s = (s', inl e) ->
  exists cause,
    e = (if is_Exception cause
         then MessageBusError (ArgStr ("Invalid Kafka " ++ client_role
                                         ++ " configurations. " ++ exn_str cause))
         else cause)
    /\ ((exists k,
           first_missing client_config (keywords_read client_role) = Some k
           /\ cause = KeyError k /\ calls s' = calls s)
        \/ (first_missing client_config (keywords_read client_role) = None
            /\ client_role <> "PRODUCER" /\ client_role <> "CONSUMER"
            /\ cause = AssertionError /\ calls s' = calls s)
        \/ (exists before c,
              calls s' = calls s ++ before ++ [c]
              /\ client_raises (calls s ++ before) c = Some cause)).
Proof.
  destruct s as [[cfg mt p c a] tr]. run_monad. unfold keywords_read.
  repeat (match goal with
          | |- context [@lookup _ _ _ _ ?k ?m] => destruct (m !! k) eqn:?
          | |- context [truthy ?v] => destruct (truthy v) eqn:?
          | |- context [String.eqb ?a ?b] => destruct (String.eqb a b) eqn:?
          | |- context [client_raises ?t ?c] => destruct (client_raises t c) eqn:?
          | |- context [is_Exception ?e] => destruct (is_Exception e) eqn:?
          end; reduce_monad; cbn [first_missing]);
    intros H; try discriminate H; injection H as <- <-; cbn [self calls];
    first
      [ exfalso; congruence
      | eexists (KeyError _); split; [reflexivity |]; left; eexists;
        split; [reflexivity |]; split; reflexivity
      | exists AssertionError; split; [reflexivity |]; right; left;
        (split; [reflexivity |]);
        (split; [apply String.eqb_neq; assumption |]);
        (split; [apply String.eqb_neq; assumption |]); split; reflexivity
      | match goal with
        | Hr : client_raises _ _ = Some ?e0, Hx : is_Exception ?e0 = _ |- _ =>
            exists e0; rewrite Hx; split; [reflexivity |]; right; right;
            first [ eexists [], _; rewrite app_nil_r; split; [reflexivity | exact Hr]
                  | eexists [_], _; rewrite <- app_assoc; split; [reflexivity | exact Hr] ]
        end ].
Qed.

(** What a PRODUCER call that returns normally has done. *)
Lemma producer_call_inv (client_config : gmap string pyval) (s s' : st) :
  KafkaMessageBroker_call client_raises "PRODUCER" client_config s = (s', inr tt) ->
  exists mt cid,
    client_config !! "message_type" = Some mt
    /\ client_config !! "client_id" = Some cid
    /\ config (self s')
       = (if truthy cid then <["client.id" := cid]> (config (self s))
          else config (self s))
    /\ message_type (self s') = mt
    /\ producer (self s') = Some {| producer_conf := config (self s') |}
    /\ consumer (self s') = consumer (self s)
    /\ admin (self s') = admin (self s)
    /\ calls s' = calls s ++ [CProducer (config (self s'))].
Proof.
  destruct s as [[cfg mt p c a] tr]. run_monad.
  change (String.eqb "PRODUCER" "PRODUCER") with true. cbv iota.
  destruct (client_config !! "message_type") as [v |]; [| discriminate].
  destruct (client_config !! "client_id") as [cid |]; [| discriminate].
  reduce_monad.
  destruct (truthy cid) eqn:Ht; reduce_monad;
    (destruct (client_raises tr _) as [e |];
     [destruct (is_Exception e); discriminate |]);
    intros H; injection H as <-; exists v, cid; rewrite Ht;
    cbn [self calls config message_type producer consumer admin];
    repeat split; reflexivity.
Qed.

(** X5. A PRODUCER call that returns normally has built the producer from the
    adapter's configuration, with [client.id] set when the call gives one,
    bound the adapter to the message type of the call, and made the
    constructor call and no other; the consumer is left as it was, and a
    producer that was already there is replaced. *)
Theorem producer_call_configures (client_config : gmap string pyval) (s s' : st) :
  KafkaMessageBroker_call client_raises "PRODUCER" client_config s = (s', inr tt) ->
  exists p,
    producer (self s') = Some p
    /\ calls s' = calls s ++ [CProducer (producer_conf p)]
    /\ client_config !! "message_type" = Some (message_type (self s'))
    /\ (forall v, client_config !! "client_id" = Some v -> truthy v = true ->
                  producer_conf p !! "client.id" = Some v)
    /\ (forall k, k <> "client.id" ->
                  producer_conf p !! k = config (self s) !! k)
    /\ consumer (self s') = consumer (self s).
Proof.
  intros H. destruct (producer_call_inv _ _ _ H)
    as (mt & cid & Hmt & Hcid & Hcfg & Hmt' & Hp & Hc & _ & Htr).
  eexists. split; [exact Hp |]. cbn [producer_conf].
  split; [exact Htr |]. split; [rewrite Hmt'; exact Hmt |].
  split; [| split; [| exact Hc]].
  - intros v Hv Ht. rewrite Hcid in Hv. injection Hv as ->.
    rewrite Hcfg, Ht. apply lookup_insert_eq.
  - intros k Hk. rewrite Hcfg. destruct (truthy cid); [| reflexivity].
    apply lookup_insert_ne. congruence.
Qed.


(** X7. The role-configuration call writes four options of the configuration
    and no other: every other entry, the server list among them, is after
    the call what it was before, whether the call fails or not. *)
Theorem call_writes_only_role_options (client_role : string)
    (client_config : gmap string pyval) (s : st) (k : string) :
  k <> "client.id" ->
  k <> "enable.auto.commit" ->
  k <> "auto.offset.reset" ->
  k <> "group.id" ->
  config (self (fst (KafkaMessageBroker_call client_raises client_role
                       client_config s))) !! k
  = config (self s) !! k.
Proof.
  intros H1 H2 H3 H4.
  destruct (KafkaMessageBroker_call client_raises client_role client_config s)
    as [s' r] eqn:Hrun.
  cbn [fst]. set (at_k := fun m : gmap string pyval => m !! k).
  change (at_k (config (self s')) = at_k (config (self s))).
  revert Hrun. destruct s as [[cfg mt p c a] tr]. run_monad.
  case_on_matches client_raises; intros H; injection H as <- _;
    subst at_k; cbn [self config];
    repeat (rewrite lookup_insert_ne; [| congruence]); reflexivity.
Qed.

(** What a CONSUMER call that returns normally leaves in the adapter. *)
Lemma consumer_call_inv (client_config : gmap string pyval) (s s' : st) :
  KafkaMessageBroker_call client_raises "CONSUMER" client_config s = (s', inr tt) ->
  config (self s') !! "enable.auto.commit" = Some (PBool false)
  /\ is_Some (consumer (self s'))
  /\ producer (self s') = producer (self s).
Proof.
  destruct s as [[cfg mt p c a] tr]. run_monad.
  change (String.eqb "CONSUMER" "PRODUCER") with false.
  change (String.eqb "CONSUMER" "CONSUMER") with true. cbv iota.
  case_on_matches client_raises; intros H; try discriminate H;
    injection H as <-; cbn [self config consumer producer];
    (split; [simplify_map_eq; reflexivity |]); (split; [eexists |]); reflexivity.
Qed.

(** X8. The adapter has one configuration for both roles.  A producer made
    after a consumer on the same adapter is built with the options written
    for the consumer, [enable.auto.commit] among them, and the adapter then
    holds both handles. *)
Theorem consumer_options_reach_producer (consumer_config producer_config : gmap string pyval)
    (s s1 s2 : st) :
  KafkaMessageBroker_call client_raises "CONSUMER" consumer_config s = (s1, inr tt) ->
  KafkaMessageBroker_call client_raises "PRODUCER" producer_config s1 = (s2, inr tt) ->
  exists p,
    producer (self s2) = Some p
    /\ producer_conf p !! "enable.auto.commit" = Some (PBool false)
    /\ consumer (self s2) = consumer (self s1)
    /\ is_Some (consumer (self s2)).
Proof.
  intros Hc Hp.
  destruct (consumer_call_inv _ _ _ Hc) as (Hcommit & Hsome & _).
  destruct (producer_call_inv _ _ _ Hp)
    as (mt & cid & _ & _ & Hcfg & _ & Hprod & Hcons & _).
  eexists. split; [exact Hprod |]. cbn [producer_conf].
  split; [| split; [exact Hcons | rewrite Hcons; exact Hsome]].
  rewrite Hcfg. destruct (truthy cid); [| exact Hcommit].
  rewrite lookup_insert_ne; [exact Hcommit | discriminate].
Qed.

(** X9. A PRODUCER call reads two keyword arguments only: calls that agree on
    [message_type] and [client_id] do the same, whatever else they carry or
    leave out. *)
Theorem producer_call_reads_two_keywords (config1 config2 : gmap string pyval) (s : st) :
  config1 !! "message_type" = config2 !! "message_type" ->
  config1 !! "client_id" = config2 !! "client_id" ->
  KafkaMessageBroker_call client_raises "PRODUCER" config1 s
  = KafkaMessageBroker_call client_raises "PRODUCER" config2 s.
Proof.
  intros Hmt Hcid. run_monad.
  change (String.eqb "PRODUCER" "PRODUCER") with true. cbv iota.
  rewrite Hmt, Hcid. reflexivity.
Qed.

(** *** The producer path *)

Lemma produce_unencodable (m : pystr) (e : exn) (messages : list pystr)
    (b : KafkaMessageBroker) (p : Producer) (tr : list call) :
  producer b = Some p ->
  bytes_utf8 m = inl e ->
  for_each (m :: messages) (produce client_raises) {| self := b; calls := tr |}
  = ({| self := b; calls := tr |}, inl e).
Proof.
  intros Hp Hm. cbn [for_each]. unfold bind at 1. unfold produce at 1.
  unfold bind, get, raise. cbn [self calls]. rewrite Hp, Hm. reflexivity.
Qed.

(** X11. A message without a UTF-8 encoding stops [send] where it stands: the
    messages before it have been written, the [UnicodeEncodeError] leaves
    [send] as it is, and neither the later messages nor the flush are
    issued. *)
Theorem send_stops_at_unencodable (before : list pystr) (bad : pystr)
    (after : list pystr) (payloads : list (list byte)) (s : st) (p : Producer)
    (e : exn) :
  producer (self s) = Some p ->
  Forall2 (fun m bs => bytes_utf8 m = inr bs) before payloads ->
  bytes_utf8 bad = inl e ->
  (forall tr c, client_raises tr c = None) ->
  send client_raises (before ++ bad :: after) s
  = ({| self := self s;
        calls := calls s ++ map (CProduce p (message_type (self s))) payloads |},
     inl e).
Proof.
  intros Hp Henc Hbad Hnever. destruct s as [b tr]. cbn [self calls] in *.
  unfold send, bind.
  assert (Hloop : for_each (before ++ bad :: after) (produce client_raises)
                    {| self := b; calls := tr |}
                  = ({| self := b;
                        calls := tr ++ map (CProduce p (message_type b)) payloads |},
                     inl e)).
  { revert tr. induction Henc as [| m bs before payloads Hm Henc IH]; intros tr.
    - cbn [app map]. rewrite app_nil_r.
      apply (produce_unencodable bad e after b p tr Hp Hbad).
    - cbn [app map]. rewrite (produce_cons client_raises m bs _ b p tr Hp Hm).
      rewrite Hnever, IH, <- app_assoc. reflexivity. }
  rewrite Hloop. reflexivity.
Qed.

Lemma produce_loop_frame (messages : list pystr) (b : KafkaMessageBroker)
    (tr : list call) :
  exists added r,
    for_each messages (produce client_raises) {| self := b; calls := tr |}
    = ({| self := b; calls := tr ++ added |}, r)
    /\ forallb is_write_or_flush added = true.
Proof.
  revert tr. induction messages as [| m messages IH]; intros tr.
  - exists [], (inr tt). rewrite app_nil_r. split; reflexivity.
  - destruct (producer b) as [p |] eqn:Hp.
    + destruct (bytes_utf8 m) as [e | bs] eqn:Hm.
      * exists [], (inl e). rewrite app_nil_r.
        split; [apply (produce_unencodable m e messages b p tr Hp Hm) | reflexivity].
      * rewrite (produce_cons client_raises m bs messages b p tr Hp Hm).
        destruct (client_raises tr (CProduce p (message_type b) bs)) as [e |].
        -- exists [CProduce p (message_type b) bs], (inl e). split; reflexivity.
        -- destruct (IH (tr ++ [CProduce p (message_type b) bs]))
             as (added & r & Hrun & Hall).
           exists (CProduce p (message_type b) bs :: added), r.
           rewrite Hrun, <- app_assoc. split; [reflexivity | exact Hall].
    + exists [], (inl (AttributeError "'NoneType' object has no attribute 'produce'")).
      rewrite app_nil_r. split; [| reflexivity].
      cbn [for_each]. unfold bind at 1. unfold produce at 1.
      unfold bind, get, raise. cbn [self]. rewrite Hp. reflexivity.
Qed.

(** X12. [send] never changes the adapter, whatever it is given and however it
    ends, and the only calls it makes into the client are writes and the
    flush. *)
Theorem send_leaves_adapter_unchanged (messages : list pystr) (s : st) :
  self (fst (send client_raises messages s)) = self s
  /\ exists added,
      calls (fst (send client_raises messages s)) = calls s ++ added
      /\ forallb is_write_or_flush added = true.
Proof.
  destruct s as [b tr]. unfold send, bind.
  destruct (produce_loop_frame messages b tr) as (added & r & Hrun & Hall).
  rewrite Hrun. destruct r as [e | []].
  - cbn [fst self calls]. split; [reflexivity |]. exists added. split; [reflexivity | exact Hall].
  - destruct (producer b) as [p |] eqn:Hp.
    + rewrite (flush_step client_raises b p _ Hp). cbn [fst self calls].
      split; [reflexivity |]. exists (added ++ [CFlush p]).
      rewrite <- app_assoc, forallb_app, Hall. split; reflexivity.
    + unfold flush, bind, get, raise. cbn [self calls]. rewrite Hp.
      cbn [fst self calls]. split; [reflexivity |].
      exists added. split; [reflexivity | exact Hall].
Qed.

(** X13. Configure, then send: after a PRODUCER call that returned normally,
    [send] writes the encoded messages, in order, to the message type given
    in that call, through the producer that call built, and flushes it. *)
Theorem producer_call_then_send (client_config : gmap string pyval)
    (messages : list pystr) (payloads : list (list byte)) (s s1 : st) (mt : pyval) :
  KafkaMessageBroker_call client_raises "PRODUCER" client_config s = (s1, inr tt) ->
  client_config !! "message_type" = Some mt ->
  Forall2 (fun m bs => bytes_utf8 m = inr bs) messages payloads ->
  (forall tr c, client_raises tr c = None) ->
  send client_raises messages s1
  = ({| self := self s1;
        calls := calls s ++ [CProducer (config (self s1))]
                   ++ map (CProduce {| producer_conf := config (self s1) |} mt) payloads
                   ++ [CFlush {| producer_conf := config (self s1) |}] |},
     inr tt).
Proof.
  intros Hcall Hkw Henc Hnever.
  destruct (producer_call_inv _ _ _ Hcall)
    as (mt' & cid & Hmt & _ & _ & Hmt' & Hp & _ & _ & Htr).
  rewrite Hkw in Hmt. injection Hmt as <-.
  destruct s1 as [b1 tr1]. cbn [self calls] in *.
  unfold send, bind.
  destruct (produce_loop client_raises messages payloads b1 _ tr1 Hp Henc)
    as [[Hrun _] | (pre & c & post & e & _ & He & _)].
  - rewrite Hrun, (flush_step client_raises b1 _ _ Hp), Hnever, Hmt', Htr.
    rewrite <- !app_assoc. reflexivity.
  - rewrite Hnever in He. discriminate He.
Qed.

End Further.

(** *** The encoding of message text *)

Lemma utf8_char_encodable (c : N) :
  encodable c = true ->
  exists bs, utf8_char c = Some bs /\ 1 <= length bs <= 4.
Proof.
  unfold encodable, utf8_char. intros H.
  destruct (N.ltb_spec c 0x80); [eexists; split; [reflexivity | cbn; lia] |].
  destruct (N.ltb_spec c 0x800); [eexists; split; [reflexivity | cbn; lia] |].
  destruct (N.ltb_spec c 0x10000).
  - destruct (N.leb_spec 0xD800 c); destruct (N.leb_spec c 0xDFFF); cbn [andb];
      try (eexists; split; [reflexivity | cbn; lia]).
    exfalso. destruct (N.ltb_spec c 0xD800); [lia |].
    destruct (N.ltb_spec 0xDFFF c); [lia |]. discriminate H.
  - destruct (N.ltb_spec c 0x110000); [eexists; split; [reflexivity | cbn; lia] |].
    exfalso. destruct (N.ltb_spec c 0xD800); [lia |].
    destruct (N.ltb_spec 0xDFFF c); [| lia]. discriminate H.
Qed.

Lemma utf8_char_unencodable (c : N) :
  encodable c = false -> utf8_char c = None.
Proof.
  unfold encodable, utf8_char. intros H.
  destruct (N.ltb_spec c 0xD800); [discriminate H |].
  destruct (N.ltb_spec 0xDFFF c); cbn [orb andb] in H.
  - destruct (N.ltb_spec c 0x110000); [discriminate H |].
    destruct (N.ltb_spec c 0x80); [lia |]. destruct (N.ltb_spec c 0x800); [lia |].
    destruct (N.ltb_spec c 0x10000); [lia |]. reflexivity.
  - destruct (N.ltb_spec c 0x80); [lia |]. destruct (N.ltb_spec c 0x800); [lia |].
    destruct (N.ltb_spec c 0x10000); [| lia].
    destruct (N.leb_spec 0xD800 c); [| lia]. destruct (N.leb_spec c 0xDFFF); [| lia].
    reflexivity.
Qed.

(** X14. ASCII text is sent as it is: one byte per character, the byte of the
    character. *)
Theorem bytes_utf8_ascii (s : pystr) :
  Forall (fun c => (c < 128)%N) s ->
  bytes_utf8 s = inr (map byte_of s).
Proof.
  unfold bytes_utf8. generalize 0%nat.
  induction s as [| c s IH]; intros pos Hs; [reflexivity |].
  inversion Hs as [| ? ? Hc Hrest]; subst. cbn [utf8_from map].
  unfold utf8_char. destruct (N.ltb_spec c 0x80); [| lia].
  rewrite (IH (S pos) Hrest). reflexivity.
Qed.

Lemma utf8_from_encodable (s : pystr) (pos : nat) :
  forallb encodable s = true ->
  exists bs, utf8_from pos s = inr bs /\ length s <= length bs <= 4 * length s.
Proof.
  revert pos. induction s as [| c s IH]; intros pos Hs.
  - exists []. split; [reflexivity | cbn; lia].
  - cbn [forallb] in Hs. apply andb_prop in Hs as [Hc Hrest].
    destruct (utf8_char_encodable c Hc) as (bs & Hbs & Hlen).
    destruct (IH (S pos) Hrest) as (tl & Htl & Hlens).
    exists (bs ++ tl). cbn [utf8_from]. rewrite Hbs, Htl.
    split; [reflexivity |]. rewrite length_app. cbn [length]. lia.
Qed.

(** X15. Text whose code points all have an encoding is encoded, into at least
    one and at most four bytes per character. *)
Theorem bytes_utf8_encodable (s : pystr) :
  forallb encodable s = true ->
  exists bs, bytes_utf8 s = inr bs /\ length s <= length bs <= 4 * length s.
Proof. apply utf8_from_encodable. Qed.

(** X16. The first character without an encoding, a surrogate for instance, makes
    the conversion fail with a [UnicodeEncodeError] that gives its position
    and its code point. *)
Theorem bytes_utf8_first_unencodable (before : pystr) (c : N) (after : pystr) :
  forallb encodable before = true ->
  encodable c = false ->
  bytes_utf8 (before ++ c :: after) = inl (UnicodeEncodeError (length before) c).
Proof.
  unfold bytes_utf8. intros Hbefore Hc.
  change (length before) with (0 + length before)%nat. generalize 0%nat.
  induction before as [| b before IH]; intros pos.
  - cbn [app utf8_from length]. rewrite (utf8_char_unencodable c Hc).
    rewrite Nat.add_0_r. reflexivity.
  - cbn [forallb] in Hbefore. apply andb_prop in Hbefore as [Hb Hrest].
    destruct (utf8_char_encodable b Hb) as (bs & Hbs & _).
    cbn [app utf8_from length]. rewrite Hbs, (IH Hrest (S pos)).
    f_equal. f_equal. lia.
Qed.

(** *** The consumer path *)

(** X17. [receive] loses nothing and reorders nothing.  The records yielded are
    those of an initial part of the messages polled, in the order polled,
    all of them without error, and the error stream holds one line per
    record, followed by the abort line when the run was interrupted. *)
Theorem records_follow_poll_order (consumer : option Consumer)
    (polls : list poll_outcome) :
  exists msgs rest,
    poll_messages polls = msgs ++ rest
    /\ Forall (fun msg => msg_error msg = None) msgs
    /\ yielded (receive_subscribed consumer polls) = map record_of msgs
    /\ stderr (receive_subscribed consumer polls)
       = map record_line msgs
           ++ closing_lines (status (receive_subscribed consumer polls)).
Proof.
  destruct consumer as [c |]; cbn [receive_subscribed].
  2: { exists [], (poll_messages polls). repeat split. constructor. }
  induction polls as [| o polls (msgs & rest & Hsplit & Hok & Hy & Herr)].
  - exists [], []. repeat split. constructor.
  - destruct o as [| msg | e]; cbn [poll_loop poll_messages].
    + exists msgs, rest. repeat split; assumption.
    + destruct (msg_error msg) eqn:Hmsg.
      * exists [], (msg :: poll_messages polls). repeat split. constructor.
      * exists (msg :: msgs), rest. cbn [emit yielded stderr status map app].
        rewrite Hsplit, Hy, Herr. repeat split. constructor; assumption.
    + exists [], (poll_messages polls). destruct e; repeat split; constructor.
Qed.

(** X18. [receive] does not end by itself: as long as the polls time out or
    return messages without error, every message polled has been yielded
    and the generator is still polling. *)
Theorem quiet_polls_keep_polling (c : Consumer) (polls : list poll_outcome) :
  forallb quiet_poll polls = true ->
  receive_subscribed (Some c) polls
  = {| yielded := map record_of (poll_messages polls);
       stderr := map record_line (poll_messages polls);
       status := Polling |}.
Proof.
  cbn [receive_subscribed].
  induction polls as [| o polls IH]; intros Hq; [reflexivity |].
  cbn [forallb] in Hq. apply andb_prop in Hq as [Ho Hrest].
  destruct o as [| msg | e]; cbn [poll_loop poll_messages quiet_poll] in *.
  - apply IH. exact Hrest.
  - destruct (msg_error msg); [discriminate Ho |].
    rewrite (IH Hrest). reflexivity.
  - discriminate Ho.
Qed.

(** X19. An exception of [poll] other than [KeyboardInterrupt] ends the
    generator as it is, not wrapped in a [MessageBusError], and nothing is
    written to the error stream for it. *)
Theorem poll_exception_leaves_unwrapped (consumer : option Consumer)
    (pre post : list poll_outcome) (e : exn) :
  status (receive_subscribed consumer pre) = Polling ->
  e <> KeyboardInterrupt ->
  receive_subscribed consumer (pre ++ PollRaises e :: post)
  = {| yielded := yielded (receive_subscribed consumer pre);
       stderr := stderr (receive_subscribed consumer pre);
       status := Raised e |}.
Proof.
  intros Hlive He. rewrite (receive_app_live consumer pre _ Hlive).
  destruct e; try congruence; cbn [poll_loop yielded stderr status];
    rewrite !app_nil_r; reflexivity.
Qed.

(** X20. Once the generator has raised or returned it polls no more: what the
    broker holds after that point has no effect on the run. *)
Theorem ended_receive_reads_no_more (consumer : option Consumer)
    (pre post : list poll_outcome) :
  status (receive_subscribed consumer pre) <> Polling ->
  receive_subscribed consumer (pre ++ post) = receive_subscribed consumer pre.
Proof.
  destruct consumer as [c |]; cbn [receive_subscribed]; [| reflexivity].
  apply poll_loop_app_over.
Qed.

(** ** The further properties at sample inputs *)

Lemma factory_failure_witness :
  exists cause,
    KafkaMessageBroker_init never_raises bare_Conf [] = ([], inl cause)
    /\ MessageBusError (ArgStr "Invalid Broker. 'servers'")
       = (if is_Exception cause
          then MessageBusError (ArgStr ("Invalid Broker. " ++ exn_str cause))
          else cause).
Proof.
  destruct (factory_failure_is_wrapped never_raises bare_Conf "kafka" [] []
              (MessageBusError (ArgStr "Invalid Broker. 'servers'")))
    as (_ & cause & Hinit & He).
  - vm_compute. reflexivity.
  - exists cause. split; [exact Hinit | exact He].
Defined.

Lemma construction_without_servers_witness :
  MessageBrokerFactory_init never_raises bare_Conf "kafka" []
  = ([], inl (MessageBusError (ArgStr "Invalid Broker. 'servers'"))).
Proof.
  apply (construction_without_servers never_raises bare_Conf ∅ []); reflexivity.
Defined.

Lemma factory_kafka_witness :
  exists entry l,
    sample_Conf "global" "message_broker" = inr entry
    /\ entry !! "servers" = Some l
    /\ adapter (match snd (MessageBrokerFactory_init never_raises sample_Conf "kafka" []) with
                | inr f => f
                | inl _ => {| adapter := None |}
                end)
       = Some {| config := {[ "bootstrap.servers" := PStr (join "," l) ]};
                 message_type := PNone; producer := None; consumer := None;
                 admin := {| admin_conf :=
                               {[ "bootstrap.servers" := PStr (join "," l) ]} |} |}.
Proof.
  destruct (factory_kafka_adapter_has_no_role never_raises sample_Conf []
              (fst (MessageBrokerFactory_init never_raises sample_Conf "kafka" []))
              {| adapter := Some sample_broker |})
    as (entry & l & HConf & Hl & _ & Hf).
  - vm_compute. reflexivity.
  - exists entry, l. split; [exact HConf |]. split; [exact Hl |].
    rewrite <- Hf. vm_compute. reflexivity.
Defined.

Lemma call_failure_witness :
  exists cause,
    MessageBusError (ArgStr "Invalid Kafka CONSUMER configurations. Unknown topic")
    = (if is_Exception cause
       then MessageBusError (ArgStr ("Invalid Kafka " ++ "CONSUMER"
                                       ++ " configurations. " ++ exn_str cause))
       else cause)
    /\ exists before c,
        calls (fst (KafkaMessageBroker_call subscribe_fails "CONSUMER"
                      sample_consumer_kwargs sample_st))
        = calls sample_st ++ before ++ [c]
        /\ subscribe_fails (calls sample_st ++ before) c = Some cause.
Proof.
  destruct (call_failure_is_wrapped subscribe_fails "CONSUMER" sample_consumer_kwargs
              sample_st
              (fst (KafkaMessageBroker_call subscribe_fails "CONSUMER"
                      sample_consumer_kwargs sample_st))
              (MessageBusError
                 (ArgStr "Invalid Kafka CONSUMER configurations. Unknown topic")))
    as (cause & He & [(k & Hk & _) | [(Hnone & _ & Hrole & _) | Hclient]]).
  - vm_compute. reflexivity.
  - vm_compute in Hk. discriminate Hk.
  - exfalso. apply Hrole. reflexivity.
  - exists cause. split; [exact He | exact Hclient].
Defined.

Lemma producer_call_witness :
  exists p,
    producer (self (fst (KafkaMessageBroker_call never_raises "PRODUCER"
                           {[ "message_type" := PStr "orders";
                              "client_id" := PStr "c1" ]} sample_st))) = Some p
    /\ producer_conf p !! "client.id" = Some (PStr "c1")
    /\ producer_conf p !! "bootstrap.servers" = Some (PStr "localhost:9092").
Proof.
  destruct (producer_call_configures never_raises
              {[ "message_type" := PStr "orders"; "client_id" := PStr "c1" ]}
              sample_st
              (fst (KafkaMessageBroker_call never_raises "PRODUCER"
                      {[ "message_type" := PStr "orders";
                         "client_id" := PStr "c1" ]} sample_st)))
    as (p & Hp & _ & _ & Hcid & Hother & _).
  - vm_compute. reflexivity.
  - exists p. split; [exact Hp |]. split.
    + apply Hcid; reflexivity.
    + rewrite Hother; [reflexivity | discriminate].
Defined.


Lemma call_writes_only_role_options_witness :
  config (self (fst (KafkaMessageBroker_call never_raises "CONSUMER"
                       sample_consumer_kwargs sample_st))) !! "bootstrap.servers"
  = Some (PStr "localhost:9092").
Proof.
  rewrite (call_writes_only_role_options never_raises "CONSUMER"
             sample_consumer_kwargs sample_st "bootstrap.servers");
    [reflexivity | discriminate | discriminate | discriminate | discriminate].
Defined.

Lemma consumer_options_reach_producer_witness :
  exists p,
    producer (self (fst (KafkaMessageBroker_call never_raises "PRODUCER"
                           sample_producer_kwargs
                           (fst (KafkaMessageBroker_call never_raises "CONSUMER"
                                   sample_consumer_kwargs sample_st))))) = Some p
    /\ producer_conf p !! "enable.auto.commit" = Some (PBool false).
Proof.
  destruct (consumer_options_reach_producer never_raises sample_consumer_kwargs
              sample_producer_kwargs sample_st
              (fst (KafkaMessageBroker_call never_raises "CONSUMER"
                      sample_consumer_kwargs sample_st))
              (fst (KafkaMessageBroker_call never_raises "PRODUCER"
                      sample_producer_kwargs
                      (fst (KafkaMessageBroker_call never_raises "CONSUMER"
                              sample_consumer_kwargs sample_st)))))
    as (p & Hp & Hcommit & _).
  - vm_compute. reflexivity.
  - vm_compute. reflexivity.
  - exists p. split; [exact Hp | exact Hcommit].
Defined.

Lemma producer_call_reads_two_keywords_witness :
  KafkaMessageBroker_call never_raises "PRODUCER" sample_bare_kwargs sample_st
  = KafkaMessageBroker_call never_raises "PRODUCER"
      {[ "message_type" := PList ["orders"]; "client_id" := PNone ]} sample_st.
Proof.
  apply (producer_call_reads_two_keywords never_raises sample_bare_kwargs
           {[ "message_type" := PList ["orders"]; "client_id" := PNone ]} sample_st);
    reflexivity.
Defined.

Lemma send_without_producer_witness :
  send never_raises [[104; 105]%N] sample_st
  = (sample_st, inl (AttributeError "'NoneType' object has no attribute 'produce'"))
  /\ send never_raises [] sample_st
     = (sample_st, inl (AttributeError "'NoneType' object has no attribute 'flush'")).
Proof.
  split.
  - apply (send_without_producer never_raises [[104; 105]%N] sample_st). reflexivity.
  - apply (send_without_producer never_raises [] sample_st). reflexivity.
Defined.

Lemma send_stops_at_unencodable_witness :
  send never_raises ([[104; 105]%N] ++ [0xD800%N] :: [[0x20ac]%N]) sample_producer_st
  = ({| self := self sample_producer_st;
        calls := calls sample_producer_st
                 ++ map (CProduce sample_producer (message_type (self sample_producer_st)))
                      [[x68; x69]] |},
     inl (UnicodeEncodeError 0 0xD800)).
Proof.
  apply (send_stops_at_unencodable never_raises [[104; 105]%N] [0xD800%N] [[0x20ac]%N]
           [[x68; x69]] sample_producer_st sample_producer (UnicodeEncodeError 0 0xD800)).
  - reflexivity.
  - repeat constructor.
  - reflexivity.
  - intros tr c. reflexivity.
Defined.

Lemma producer_call_then_send_witness :
  exists s1,
    KafkaMessageBroker_call never_raises "PRODUCER" sample_producer_kwargs sample_st
    = (s1, inr tt)
    /\ send never_raises [[104; 105]%N] s1
       = ({| self := self s1;
             calls := calls sample_st ++ [CProducer (config (self s1))]
                        ++ map (CProduce {| producer_conf := config (self s1) |}
                                  (PStr "orders")) [[x68; x69]]
                        ++ [CFlush {| producer_conf := config (self s1) |}] |},
          inr tt).
Proof.
  exists (fst (KafkaMessageBroker_call never_raises "PRODUCER" sample_producer_kwargs
                 sample_st)).
  split; [vm_compute; reflexivity |].
  apply (producer_call_then_send never_raises sample_producer_kwargs [[104; 105]%N]
           [[x68; x69]] sample_st).
  - vm_compute. reflexivity.
  - reflexivity.
  - repeat constructor.
  - intros tr c. reflexivity.
Defined.

Lemma bytes_utf8_ascii_witness :
  bytes_utf8 [104; 105]%N = inr (map byte_of [104; 105]%N).
Proof.
  apply (bytes_utf8_ascii [104; 105]%N).
  repeat (constructor; [reflexivity |]). constructor.
Defined.

Lemma bytes_utf8_encodable_witness :
  exists bs, bytes_utf8 [104; 0x20ac; 0x1F600]%N = inr bs /\ 3 <= length bs <= 4 * 3.
Proof. apply (bytes_utf8_encodable [104; 0x20ac; 0x1F600]%N). reflexivity. Defined.

Lemma bytes_utf8_first_unencodable_witness :
  bytes_utf8 ([104; 0x20ac]%N ++ 0xDC80%N :: [105%N])
  = inl (UnicodeEncodeError 2 0xDC80).
Proof.
  apply (bytes_utf8_first_unencodable [104; 0x20ac]%N 0xDC80%N [105%N]); reflexivity.
Defined.

Lemma quiet_polls_witness :
  receive_subscribed (Some sample_consumer)
    [PollNone; PollMsg (sample_msg 7 [x68; x69]); PollNone;
     PollMsg (sample_msg 8 [x68; x6f])]
  = {| yielded := [record_of (sample_msg 7 [x68; x69]);
                   record_of (sample_msg 8 [x68; x6f])];
       stderr := [record_line (sample_msg 7 [x68; x69]);
                  record_line (sample_msg 8 [x68; x6f])];
       status := Polling |}.
Proof.
  apply (quiet_polls_keep_polling sample_consumer
           [PollNone; PollMsg (sample_msg 7 [x68; x69]); PollNone;
            PollMsg (sample_msg 8 [x68; x6f])]).
  reflexivity.
Defined.

Lemma poll_exception_witness :
  receive_subscribed (Some sample_consumer)
    ([PollMsg (sample_msg 7 [x68; x69])]
       ++ PollRaises (ClientError "RuntimeError" "Consumer closed") :: [PollNone])
  = {| yielded := [record_of (sample_msg 7 [x68; x69])];
       stderr := [record_line (sample_msg 7 [x68; x69])];
       status := Raised (ClientError "RuntimeError" "Consumer closed") |}.
Proof.
  apply (poll_exception_leaves_unwrapped (Some sample_consumer)
           [PollMsg (sample_msg 7 [x68; x69])] [PollNone]
           (ClientError "RuntimeError" "Consumer closed"));
    [reflexivity | discriminate].
Defined.

Lemma ended_receive_witness :
  receive_subscribed (Some sample_consumer)
    ([PollMsg sample_error_msg] ++ [PollMsg (sample_msg 8 [x68; x6f])])
  = receive_subscribed (Some sample_consumer) [PollMsg sample_error_msg].
Proof.
  apply (ended_receive_reads_no_more (Some sample_consumer) [PollMsg sample_error_msg]
           [PollMsg (sample_msg 8 [x68; x6f])]).
  discriminate.
Defined.

(** ** Keywords of the role configuration *)

Section Keywords.

Variable client_raises : list call -> call -> option exn.

Lemma missing_keyword_raises (client_role : string) (client_config : gmap string pyval)
    (s : st) (k : string) :
  client_role = "PRODUCER" \/ client_role = "CONSUMER" ->
  first_missing client_config (keywords_read client_role) = Some k ->
  snd (KafkaMessageBroker_call client_raises client_role client_config s)
  = inl (MessageBusError (ArgStr ("Invalid Kafka " ++ client_role
                                    ++ " configurations. " ++ exn_str (KeyError k))))
  /\ calls (fst (KafkaMessageBroker_call client_raises client_role client_config s))
     = calls s
  /\ producer (self (fst (KafkaMessageBroker_call client_raises client_role
                            client_config s))) = producer (self s)
  /\ consumer (self (fst (KafkaMessageBroker_call client_raises client_role
                            client_config s))) = consumer (self s).
Proof.
  intros Hrole Hk. revert Hk. destruct s as [[cfg mt p c a] tr].
  destruct Hrole as [-> | ->]; run_monad; unfold keywords_read;
    change (String.eqb "PRODUCER" "PRODUCER") with true;
    change (String.eqb "CONSUMER" "PRODUCER") with false;
    change (String.eqb "CONSUMER" "CONSUMER") with true; cbv iota;
    cbn [first_missing];
    case_on_reads client_raises; intros Hk;
    first [ discriminate Hk | exfalso; congruence
          | injection Hk as <-; cbn [fst snd self calls producer consumer];
            repeat split; reflexivity ].
Qed.

Lemma present_keywords_configure (client_role : string)
    (client_config : gmap string pyval) (s : st) :
  client_role = "PRODUCER" \/ client_role = "CONSUMER" ->
  first_missing client_config (keywords_read client_role) = None ->
  config (self (fst (KafkaMessageBroker_call client_raises client_role
                       client_config s)))
  = role_options client_role client_config (config (self s)).
Proof.
  intros Hrole Hk. revert Hk. destruct s as [[cfg mt p c a] tr].
  destruct Hrole as [-> | ->]; run_monad;
    unfold keywords_read, role_options, write_if_given;
    change (String.eqb "PRODUCER" "PRODUCER") with true;
    change (String.eqb "CONSUMER" "PRODUCER") with false;
    change (String.eqb "CONSUMER" "CONSUMER") with true; cbv iota;
    cbn [first_missing];
    case_on_reads client_raises; intros Hk;
    first [ discriminate Hk | exfalso; congruence
          | cbn [fst self config]; reflexivity ].
Qed.

Lemma accepted_configuration_succeeds (client_role : string)
    (client_config : gmap string pyval) (s : st) (topics : pyval) :
  client_role = "PRODUCER" \/ client_role = "CONSUMER" ->
  first_missing client_config (keywords_read client_role) = None ->
  client_config !! "message_type" = Some topics ->
  let cfg := role_options client_role client_config (config (self s)) in
  (client_role = "PRODUCER" ->
   client_raises (calls s) (CProducer cfg) = None ->
   snd (KafkaMessageBroker_call client_raises client_role client_config s) = inr tt)
  /\ (client_role = "CONSUMER" ->
      client_raises (calls s) (CConsumer cfg) = None ->
      client_raises (calls s ++ [CConsumer cfg])
        (CSubscribe {| consumer_conf := cfg; subscription := None |} topics) = None ->
      snd (KafkaMessageBroker_call client_raises client_role client_config s) = inr tt).
Proof.
  intros Hrole Hk Hmt. revert Hk. destruct s as [[cfg0 mt p c a] tr].
  destruct Hrole as [-> | ->]; run_monad;
    unfold keywords_read, role_options, write_if_given;
    change (String.eqb "PRODUCER" "PRODUCER") with true;
    change (String.eqb "CONSUMER" "PRODUCER") with false;
    change (String.eqb "CONSUMER" "CONSUMER") with true; cbv iota;
    cbn [first_missing]; rewrite Hmt; reduce_monad;
    case_on_reads client_raises; intros Hk;
    first [ discriminate Hk | exfalso; congruence
          | split; intros; first [discriminate | congruence | reflexivity] ].
Qed.

Lemma falsy_keeps_option (client_role opt key : string)
    (client_config cfg : gmap string pyval) (v : pyval) :
  (opt = "client.id" /\ key = "client_id")
  \/ (opt = "auto.offset.reset" /\ key = "offset")
  \/ (opt = "group.id" /\ key = "consumer_group") ->
  client_config !! key = Some v ->
  truthy v = false ->
  role_options client_role client_config cfg !! opt = cfg !! opt.
Proof.
  intros Hpair Hv Ht. unfold role_options, write_if_given.
  destruct Hpair as [[-> ->] | [[-> ->] | [-> ->]]]; rewrite Hv, Ht;
    repeat match goal with
           | |- context [@lookup _ _ _ _ ?k client_config] =>
               destruct (client_config !! k) as [? |]
           | |- context [truthy ?x] => destruct (truthy x)
           | |- context [String.eqb ?a ?b] => destruct (String.eqb a b)
           end;
    repeat (rewrite lookup_insert_ne; [| discriminate]); reflexivity.
Qed.

(** C8, amended.  The keywords are required, their values are not: a
    PRODUCER or CONSUMER call that lacks one of the keywords it reads ends
    with the [KeyError] of the first one missing, wrapped in a
    [MessageBusError], before any client call and with both handles as they
    were; with the keywords all there, a value of [None] (or any value
    without truth) leaves the client option of that keyword as it was before
    the call, the client is built from the resulting configuration, and the
    call returns normally when the client accepts the constructor call (and,
    for a consumer, the subscription). *)
Theorem role_keywords_required_but_nullable (client_role : string)
    (client_config : gmap string pyval) (s : st) :
  client_role = "PRODUCER" \/ client_role = "CONSUMER" ->
  (forall k,
      first_missing client_config (keywords_read client_role) = Some k ->
      snd (KafkaMessageBroker_call client_raises client_role client_config s)
      = inl (MessageBusError (ArgStr ("Invalid Kafka " ++ client_role
                                        ++ " configurations. "
                                        ++ exn_str (KeyError k))))
      /\ calls (fst (KafkaMessageBroker_call client_raises client_role
                       client_config s)) = calls s
      /\ producer (self (fst (KafkaMessageBroker_call client_raises client_role
                                client_config s))) = producer (self s)
      /\ consumer (self (fst (KafkaMessageBroker_call client_raises client_role
                                client_config s))) = consumer (self s))
  /\ (first_missing client_config (keywords_read client_role) = None ->
      let cfg := role_options client_role client_config (config (self s)) in
      config (self (fst (KafkaMessageBroker_call client_raises client_role
                           client_config s))) = cfg
      /\ (forall v, client_config !! "client_id" = Some v -> truthy v = false ->
                    cfg !! "client.id" = config (self s) !! "client.id")
      /\ (forall v, client_config !! "offset" = Some v -> truthy v = false ->
                    cfg !! "auto.offset.reset" = config (self s) !! "auto.offset.reset")
      /\ (forall v, client_config !! "consumer_group" = Some v -> truthy v = false ->
                    cfg !! "group.id" = config (self s) !! "group.id")
      /\ (client_role = "PRODUCER" ->
          client_raises (calls s) (CProducer cfg) = None ->
          snd (KafkaMessageBroker_call client_raises client_role client_config s)
          = inr tt)
      /\ (forall topics,
            client_role = "CONSUMER" ->
            client_config !! "message_type" = Some topics ->
            client_raises (calls s) (CConsumer cfg) = None ->
            client_raises (calls s ++ [CConsumer cfg])
              (CSubscribe {| consumer_conf := cfg; subscription := None |} topics)
            = None ->
            snd (KafkaMessageBroker_call client_raises client_role client_config s)
            = inr tt)).
Proof.
  intros Hrole. split.
  - intros k Hk. apply missing_keyword_raises; assumption.
  - intros Hnone. cbv zeta.
    split; [apply present_keywords_configure; assumption |].
    split; [intros v Hv Ht; apply (falsy_keeps_option _ _ "client_id" _ _ v); auto |].
    split; [intros v Hv Ht; apply (falsy_keeps_option _ _ "offset" _ _ v); auto |].
    split; [intros v Hv Ht; apply (falsy_keeps_option _ _ "consumer_group" _ _ v); auto |].
    assert (Hmt : exists topics, client_config !! "message_type" = Some topics).
    { destruct Hrole as [-> | ->]; cbn in Hnone;
        destruct (client_config !! "message_type") as [t |]; [eauto | discriminate
                                                              | eauto | discriminate]. }
    destruct Hmt as [t Ht]. split.
    + intros HP Hc.
      apply (proj1 (accepted_configuration_succeeds client_role client_config s t
                      Hrole Hnone Ht)); assumption.
    + intros topics HC Htopics Hc Hs. rewrite Ht in Htopics. injection Htopics as <-.
      apply (proj2 (accepted_configuration_succeeds client_role client_config s t
                      Hrole Hnone Ht)); assumption.
Qed.

End Keywords.

Lemma role_keywords_witness :
  snd (KafkaMessageBroker_call never_raises "CONSUMER"
         {[ "message_type" := PList ["orders"]; "client_id" := PNone;
            "offset" := PNone; "consumer_group" := PStr "billing" ]} sample_st)
  = inr tt
  /\ config (self (fst (KafkaMessageBroker_call never_raises "CONSUMER"
                          {[ "message_type" := PList ["orders"]; "client_id" := PNone;
                             "offset" := PNone; "consumer_group" := PStr "billing" ]}
                          sample_st))) !! "client.id" = None.
Proof.
  destruct (role_keywords_required_but_nullable never_raises "CONSUMER"
              {[ "message_type" := PList ["orders"]; "client_id" := PNone;
                 "offset" := PNone; "consumer_group" := PStr "billing" ]} sample_st
              (or_intror eq_refl))
    as (_ & Hpresent).
  destruct (Hpresent eq_refl) as (Hcfg & Hcid & _ & _ & _ & Hconsumer).
  split.
  - apply (Hconsumer (PList ["orders"])); reflexivity.
  - rewrite Hcfg, (Hcid PNone); reflexivity.
Defined.

(** ** Interrupts during the iteration *)

(** An iteration in which no interrupt arrives between polls is the run of
    the loop on the polls. *)
Lemma iterate_polls (at_yield : bool) (polls : list poll_outcome) :
  received (iterate at_yield (map Poll polls)) = yielded (poll_loop polls)
  /\ err_lines (iterate at_yield (map Poll polls)) = stderr (poll_loop polls)
  /\ status_of_ending (ending (iterate at_yield (map Poll polls)))
     = status (poll_loop polls).
Proof.
  revert at_yield. induction polls as [| o polls IH]; intros at_yield.
  - destruct at_yield; repeat split.
  - destruct o as [| msg | e]; cbn [map iterate poll_loop].
    + apply IH.
    + destruct (msg_error msg); [repeat split |].
      destruct (IH true) as (Hr & He & Hs).
      cbn [received_one emit received err_lines ending yielded stderr status].
      rewrite Hr, He, Hs. repeat split.
    + destruct e; repeat split.
Qed.

Lemma iterate_app_live (at_yield : bool) (pre post : list iter_event) :
  ending (iterate at_yield pre) = Suspended \/ ending (iterate at_yield pre) = InLoop ->
  iterate at_yield (pre ++ post)
  = {| received := received (iterate at_yield pre)
                   ++ received (iterate
                                  (match ending (iterate at_yield pre) with
                                   | InLoop => false
                                   | _ => true
                                   end) post);
       err_lines := err_lines (iterate at_yield pre)
                    ++ err_lines (iterate
                                    (match ending (iterate at_yield pre) with
                                     | InLoop => false
                                     | _ => true
                                     end) post);
       ending := ending (iterate
                           (match ending (iterate at_yield pre) with
                            | InLoop => false
                            | _ => true
                            end) post) |}.
Proof.
  revert at_yield. induction pre as [| ev pre IH]; intros at_yield Hlive.
  - cbn [app iterate ending received err_lines].
    destruct at_yield; destruct (iterate _ post); reflexivity.
  - destruct ev as [[| msg | e] |]; cbn [app iterate] in *.
    + apply IH. exact Hlive.
    + destruct (msg_error msg).
      * destruct Hlive as [H | H]; discriminate H.
      * cbn [received_one ending received err_lines] in *.
        rewrite (IH true Hlive). reflexivity.
    + destruct e; destruct Hlive as [H | H]; discriminate H.
    + destruct at_yield; destruct Hlive as [H | H]; discriminate H.
Qed.

(** C6, as stated: an interrupt that arrives after a record was handed to
    the caller, while the generator is suspended at its [yield], is raised
    in the caller; the generator writes no abort line and does not end the
    iteration normally. *)
Lemma interrupt_at_yield_reaches_caller :
  receive_iteration [Poll (PollMsg (sample_msg 7 [x68; x69])); Interrupt]
  = {| received := [record_of (sample_msg 7 [x68; x69])];
       err_lines := [record_line (sample_msg 7 [x68; x69])];
       ending := CallerInterrupted |}.
Proof. reflexivity. Qed.

(** C6, amended.  While the iteration is live: a [KeyboardInterrupt] raised
    when the code of the generator runs, out of [consumer.poll] or in the
    loop between two polls, is caught, the abort line is written to the
    error stream and the generator returns, so that the iteration ends
    without an exception; an interrupt that arrives when the generator has
    not started or is suspended at its [yield] is raised in the caller, and
    the generator writes nothing and handles nothing. *)
Theorem keyboard_interrupt_caught_inside_generator (pre post : list iter_event) :
  ending (receive_iteration pre) = Suspended \/ ending (receive_iteration pre) = InLoop ->
  receive_iteration (pre ++ Poll (PollRaises KeyboardInterrupt) :: post)
  = {| received := received (receive_iteration pre);
       err_lines := err_lines (receive_iteration pre) ++ [aborted_line];
       ending := GeneratorReturned |}
  /\ receive_iteration (pre ++ Interrupt :: post)
     = match ending (receive_iteration pre) with
       | InLoop =>
           {| received := received (receive_iteration pre);
              err_lines := err_lines (receive_iteration pre) ++ [aborted_line];
              ending := GeneratorReturned |}
       | _ =>
           {| received := received (receive_iteration pre);
              err_lines := err_lines (receive_iteration pre);
              ending := CallerInterrupted |}
       end.
Proof.
  unfold receive_iteration. intros Hlive. split.
  - rewrite (iterate_app_live true pre _ Hlive).
    destruct Hlive as [-> | ->]; cbn [iterate received err_lines ending];
      rewrite app_nil_r; reflexivity.
  - rewrite (iterate_app_live true pre _ Hlive).
    destruct Hlive as [-> | ->]; cbn [iterate received err_lines ending];
      rewrite ?app_nil_r; reflexivity.
Qed.

Lemma keyboard_interrupt_inside_witness :
  receive_iteration ([Poll (PollMsg (sample_msg 7 [x68; x69])); Poll PollNone]
                       ++ Poll (PollRaises KeyboardInterrupt)
                       :: [Poll (PollMsg (sample_msg 8 [x68; x6f]))])
  = {| received := [record_of (sample_msg 7 [x68; x69])];
       err_lines := [record_line (sample_msg 7 [x68; x69])] ++ [aborted_line];
       ending := GeneratorReturned |}
  /\ receive_iteration ([Poll (PollMsg (sample_msg 7 [x68; x69])); Poll PollNone]
                          ++ Interrupt :: [Poll (PollMsg (sample_msg 8 [x68; x6f]))])
     = {| received := [record_of (sample_msg 7 [x68; x69])];
          err_lines := [record_line (sample_msg 7 [x68; x69])] ++ [aborted_line];
          ending := GeneratorReturned |}.
Proof.
  apply (keyboard_interrupt_caught_inside_generator
           [Poll (PollMsg (sample_msg 7 [x68; x69])); Poll PollNone]
           [Poll (PollMsg (sample_msg 8 [x68; x6f]))]).
  right. reflexivity.
Defined.
